(** * Maven OAuth action: a shallow embedding of [src/index.js]

    The action probes for Maven, exchanges a client secret for a bearer
    token (OAuth client-credentials grant) and writes a Maven
    [settings.xml] carrying that token.  The JavaScript is embedded as
    Rocq functions over an explicit event trace: every call into
    [@actions/core], [@actions/exec], [axios] and [fs] appends one
    event, and what those libraries answer is read from a [world]
    record.  Thrown errors are a [Throw] result that [try_catch]
    intercepts, as [try]/[catch] does in the source. *)

From Stdlib Require Import String Ascii DecimalString.
From Stdlib Require Import List NArith ZArith Bool Lia.
Import ListNotations.

Set Warnings "-register-all".

Local Open Scope N_scope.

(* ================================================================== *)
(** ** JavaScript strings and values *)

(** A JavaScript string is a sequence of UTF-16 code units. *)
Definition jsstring := list N.

(** Source literals.  [js] reads a literal as it stands. *)
Definition js (s : string) : jsstring :=
  List.map N_of_ascii (list_ascii_of_string s).

(** [jsq] reads a literal in which the backquote stands for the double
    quote character (code unit 34); the literals of the source that
    hold double quotes are written that way. *)
Definition jsq (s : string) : jsstring :=
  List.map (fun c => if c =? 96 then 34 else c) (js s).

Fixpoint str_eqb (a b : jsstring) : bool :=
  match a, b with
  | [], [] => true
  | x :: a', y :: b' => (x =? y) && str_eqb a' b'
  | _, _ => false
  end.

Fixpoint starts_with (p s : jsstring) : bool :=
  match p, s with
  | [], _ => true
  | x :: p', y :: s' => (x =? y) && starts_with p' s'
  | _ :: _, [] => false
  end.

(** [includes s p] is [s.includes(p)]: [p] occurs in [s] as a run of
    consecutive code units. *)
Fixpoint includes (s p : jsstring) : bool :=
  starts_with p s ||
  match s with
  | [] => false
  | _ :: s' => includes s' p
  end.

(** JavaScript values as far as the action meets them: [undefined] and
    the values a JSON document denotes.  The action never computes with
    a number; it prints it and tests it for truth.  [VNum z] is the
    safe integer [z], whose text is its decimal digits; [VDouble text]
    is any other finite number (a fraction, or an integer beyond
    2^53), carried with the text JavaScript gives it, such as [1.5],
    [12345678901234567000] or [1e+21]; [VInfinity] is what a JSON
    number too large for a double, such as [1e999], is read as, and
    [VNaN] is the number that is none.  An object lists its own
    properties in enumeration order. *)
Inductive value :=
| VUndef
| VNull
| VBool (b : bool)
| VNum (z : Z)
| VDouble (text : jsstring)
| VInfinity (negative : bool)
| VNaN
| VStr (s : jsstring)
| VArr (items : list value)
| VObj (props : list (jsstring * value)).

(** ToBoolean. *)
Definition truthy (v : value) : bool :=
  match v with
  | VUndef | VNull => false
  | VBool b => b
  | VNum z => negb (z =? 0)%Z
  | VDouble _ => true
  | VInfinity _ => true
  | VNaN => false
  | VStr s => match s with [] => false | _ => true end
  | VArr _ | VObj _ => true
  end.

Definition str_truthy (s : jsstring) : bool :=
  match s with [] => false | _ => true end.

(** Property read [v.name]: only objects parsed from JSON have own
    properties the action asks for; anything else answers [undefined]. *)
Fixpoint lookup (name : jsstring) (props : list (jsstring * value)) : value :=
  match props with
  | [] => VUndef
  | (k, v) :: rest => if str_eqb k name then v else lookup name rest
  end.

Definition get (v : value) (name : jsstring) : value :=
  match v with
  | VObj props => lookup name props
  | _ => VUndef
  end.

(** The decimal digits of an integer: the text JavaScript gives a
    number that is a safe integer. *)
Definition dec (z : Z) : jsstring :=
  js (NilZero.string_of_int (Z.to_int z)).

Fixpoint join (sep : jsstring) (parts : list jsstring) : jsstring :=
  match parts with
  | [] => []
  | [p] => p
  | p :: rest => p ++ sep ++ join sep rest
  end.

(** ToString, as a template literal [`${v}`] applies it. *)
Fixpoint ToString (v : value) : jsstring :=
  match v with
  | VUndef => js "undefined"
  | VNull => js "null"
  | VBool true => js "true"
  | VBool false => js "false"
  | VNum z => dec z
  | VDouble text => text
  | VInfinity false => js "Infinity"
  | VInfinity true => js "-Infinity"
  | VNaN => js "NaN"
  | VStr s => s
  | VArr items =>
      join (js ",")
        (List.map (fun x => match x with
                            | VUndef | VNull => []
                            | _ => ToString x
                            end) items)
  | VObj _ => js "[object Object]"
  end.

(** *** JSON.stringify *)

Definition hex_digit (n : N) : N :=
  if n <? 10 then 48 + n else 87 + n.

Definition u_escape (c : N) : jsstring :=
  js "\u" ++ [hex_digit (c / 4096 mod 16); hex_digit (c / 256 mod 16);
              hex_digit (c / 16 mod 16); hex_digit (c mod 16)].

Definition is_high_surrogate (c : N) : bool := (55296 <=? c) && (c <=? 56319).
Definition is_low_surrogate (c : N) : bool := (56320 <=? c) && (c <=? 57343).

Definition quote_unit (c : N) : jsstring :=
  if c =? 8 then js "\b"
  else if c =? 9 then js "\t"
  else if c =? 10 then js "\n"
  else if c =? 12 then js "\f"
  else if c =? 13 then js "\r"
  else if c =? 34 then [92; 34]
  else if c =? 92 then [92; 92]
  else if c <? 32 then u_escape c
  else [c].

(** The body of a quoted JSON string: control characters, the quote and
    the backslash are escaped, and so is a surrogate without its pair. *)
Fixpoint quote_body (s : jsstring) : jsstring :=
  match s with
  | [] => []
  | c :: rest =>
      if is_high_surrogate c then
        match rest with
        | d :: rest' =>
            if is_low_surrogate d then c :: d :: quote_body rest'
            else u_escape c ++ quote_body rest
        | [] => u_escape c
        end
      else if is_low_surrogate c then u_escape c ++ quote_body rest
      else quote_unit c ++ quote_body rest
  end.

Definition quote (s : jsstring) : jsstring := [34] ++ quote_body s ++ [34].

(** [JSON.stringify(v)]; [None] is the [undefined] it returns for
    [undefined].  In an array [undefined] prints as [null]; in an object
    a property holding [undefined] is left out.  A number that is not
    finite prints as [null]. *)
Fixpoint JSON_stringify (v : value) : option jsstring :=
  match v with
  | VUndef => None
  | VNull => Some (js "null")
  | VBool true => Some (js "true")
  | VBool false => Some (js "false")
  | VNum z => Some (dec z)
  | VDouble text => Some text
  | VInfinity _ | VNaN => Some (js "null")
  | VStr s => Some (quote s)
  | VArr items =>
      Some (js "[" ++
            join (js ",")
              (List.map (fun x => match JSON_stringify x with
                                  | Some t => t
                                  | None => js "null"
                                  end) items) ++
            js "]")
  | VObj props =>
      Some (js "{" ++
            join (js ",")
              ((fix members (l : list (jsstring * value)) : list jsstring :=
                  match l with
                  | [] => []
                  | (k, x) :: rest =>
                      match JSON_stringify x with
                      | Some t => (quote k ++ js ":" ++ t) :: members rest
                      | None => members rest
                      end
                  end) props) ++
            js "}")
  end.

(** A template literal interpolating something that may be [undefined]. *)
Definition interp (o : option jsstring) : jsstring :=
  match o with
  | Some s => s
  | None => js "undefined"
  end.

(** *** Numbers as JavaScript has them *)

(** The integers a double holds exactly and prints digit by digit. *)
Definition safe_integer (z : Z) : bool :=
  (-9007199254740991 <=? z)%Z && (z <=? 9007199254740991)%Z.

(** A value whose numbers are represented as said above: every [VNum]
    is a safe integer, every other number being a [VDouble]. *)
Fixpoint numbers_as_printed (v : value) : bool :=
  match v with
  | VNum z => safe_integer z
  | VArr items => forallb numbers_as_printed items
  | VObj props =>
      (fix all (l : list (jsstring * value)) : bool :=
         match l with
         | [] => true
         | (_, x) :: rest => numbers_as_printed x && all rest
         end) props
  | _ => true
  end.

(** *** String.prototype.trim and split *)

(** WhiteSpace and LineTerminator code units. *)
Definition is_js_whitespace (c : N) : bool :=
  ((9 <=? c) && (c <=? 13)) || (c =? 32) || (c =? 160) || (c =? 5760) ||
  ((8192 <=? c) && (c <=? 8202)) || (c =? 8232) || (c =? 8233) ||
  (c =? 8239) || (c =? 8287) || (c =? 12288) || (c =? 65279).

Fixpoint trim_start (s : jsstring) : jsstring :=
  match s with
  | [] => []
  | c :: rest => if is_js_whitespace c then trim_start rest else s
  end.

Definition trim (s : jsstring) : jsstring :=
  rev (trim_start (rev (trim_start s))).

(** [s.split('\n')[0]]: the text before the first line feed. *)
Fixpoint first_line (s : jsstring) : jsstring :=
  match s with
  | [] => []
  | c :: rest => if c =? 10 then [] else c :: first_line rest
  end.

(* ================================================================== *)
(** ** Errors, events and the world outside *)

Record http_response := { status : Z; data : value }.

(** A thrown [Error]: its message and, for the errors axios rejects
    with, the [response] and [request] properties the handler tests. *)
Record error := {
  message : jsstring;
  response : option http_response;
  request : bool
}.

(** [new Error(msg)]. *)
Definition Error (msg : jsstring) : error :=
  {| message := msg; response := None; request := false |}.

Inductive event :=
| core_info (msg : jsstring)
| core_debug (msg : jsstring)
| core_setFailed (msg : jsstring)
| core_setOutput (name : jsstring) (v : value)
| core_setSecret (v : value)
| core_getInput (name : jsstring) (required : bool)
| exec_exec (cmd : jsstring) (args : list jsstring) (silent : bool)
| axios_post (url : jsstring) (params headers : list (jsstring * jsstring))
             (timeout : Z)
| fs_existsSync (path : jsstring)
| fs_mkdirSync (path : jsstring) (recursive : bool)
| fs_writeFileSync (path content encoding : jsstring).

(** What [exec('mvn', ['--version'], options)] does: it resolves with an
    exit code after feeding the [stdout] listener some chunks, or it
    rejects. *)
Inductive exec_outcome :=
| ExecExit (code : Z) (stdout : list jsstring)
| ExecReject (stdout : list jsstring) (e : error).

Inductive axios_outcome :=
| Resolved (r : http_response)
| Rejected (e : error).

Inductive result (A : Type) :=
| Ok (a : A)
| Throw (e : error).
Arguments Ok {A} a.
Arguments Throw {A} e.

(** Everything the action reads from outside itself. *)
Record world := {
  exec_mvn_version : exec_outcome;
  input_client_secret : result jsstring;
  axios_answer : jsstring -> list (jsstring * jsstring) -> axios_outcome;
  os_homedir : jsstring;
  path_join : list jsstring -> jsstring;
  path_dirname : jsstring -> jsstring;
  existsSync_answer : jsstring -> bool;
  mkdirSync_answer : jsstring -> result unit;
  writeFileSync_answer : jsstring -> jsstring -> result unit
}.

(* ================================================================== *)
(** ** The effect monad: a trace of events and thrown errors *)

Definition M (A : Type) : Type := list event -> result A * list event.

Definition ret {A} (a : A) : M A := fun tr => (Ok a, tr).

Definition bind {A B} (m : M A) (k : A -> M B) : M B :=
  fun tr =>
    match m tr with
    | (Ok a, tr') => k a tr'
    | (Throw e, tr') => (Throw e, tr')
    end.

Definition throw {A} (e : error) : M A := fun tr => (Throw e, tr).

Definition try_catch {A} (body : M A) (handler : error -> M A) : M A :=
  fun tr =>
    match body tr with
    | (Ok a, tr') => (Ok a, tr')
    | (Throw e, tr') => handler e tr'
    end.

Definition emit (e : event) : M unit := fun tr => (Ok tt, tr ++ [e]).

(** An outside call: the event is recorded, then the call returns or
    throws what the world says. *)
Definition call {A} (e : event) (answer : result A) : M A :=
  fun tr => (answer, tr ++ [e]).

Declare Scope js_scope.
Delimit Scope js_scope with js.
Notation "x <- m ;; k" := (bind m (fun x => k))
  (at level 61, m at next level, right associativity) : js_scope.
Notation "m ;; k" := (bind m (fun _ => k))
  (at level 61, right associativity) : js_scope.
Local Open Scope js_scope.

(** Running an action from the empty trace. *)
Definition outcome {A} (m : M A) : result A := fst (m []).
Definition trace {A} (m : M A) : list event := snd (m []).

(* ================================================================== *)
(** ** checkMavenAvailable *)

Definition exec_mvn (w : world) : M (Z * jsstring) :=
  fun tr =>
    let tr' := tr ++ [exec_exec (js "mvn") [js "--version"] true] in
    match exec_mvn_version w with
    | ExecExit code chunks => (Ok (code, concat chunks), tr')
    | ExecReject _ e => (Throw e, tr')
    end.

(** The [try] block either returns [true] ([Some true]) or falls
    through to the final [return false] ([None]). *)
Definition checkMavenAvailable (w : world) : M bool :=
  returned <-
    try_catch
      (r <- exec_mvn w ;;
       let '(exitCode, output) := r in
       if (exitCode =? 0)%Z then
         emit (core_info (js "Maven is available: " ++ first_line output)) ;;
         ret (Some true)
       else ret None)
      (fun error =>
         emit (core_debug (js "Maven check failed: " ++ message error)) ;;
         ret None) ;;
  match returned with
  | Some b => ret b
  | None => ret false
  end.

(* ================================================================== *)
(** ** getAccessToken *)

Definition token_request_headers : list (jsstring * jsstring) :=
  [(js "Content-Type", js "application/x-www-form-urlencoded");
   (js "Accept", js "application/json")].

Definition token_request_params (clientId clientSecret scope : jsstring)
  : list (jsstring * jsstring) :=
  let params := [(js "grant_type", js "client_credentials");
                 (js "client_id", clientId);
                 (js "client_secret", clientSecret)] in
  if str_truthy scope then params ++ [(js "scope", scope)] else params.

Definition getAccessToken (w : world)
    (tokenEndpoint clientId clientSecret scope : jsstring) : M value :=
  emit (core_info (js "Requesting OAuth access token...")) ;;
  let params := token_request_params clientId clientSecret scope in
  try_catch
    (response <-
       call (axios_post tokenEndpoint params token_request_headers 30000)
            (match axios_answer w tokenEndpoint params with
             | Resolved r => Ok r
             | Rejected e => Throw e
             end) ;;
     if (status response =? 200)%Z && truthy (data response)
        && truthy (get (data response) (js "access_token"))
     then
       emit (core_info (js "Successfully obtained access token")) ;;
       ret (get (data response) (js "access_token"))
     else throw (Error (js "No access token in response")))
    (fun error =>
       match response error with
       | Some r =>
           throw (Error (js "OAuth request failed with status " ++
                         dec (status r) ++ js ": " ++
                         interp (JSON_stringify (data r))))
       | None =>
           if request error then
             throw (Error (js "No response received from OAuth server: " ++
                           message error))
           else
             throw (Error (js "OAuth request error: " ++ message error))
       end).

(* ================================================================== *)
(** ** createMavenSettings *)

(** The three [fs] steps shared by both generations of the renderer:
    make the directory when it is missing, then write the file. *)
Definition write_settings (w : world) (settingsPath settingsXml : jsstring)
  : M unit :=
  let settingsDir := path_dirname w settingsPath in
  present <- call (fs_existsSync settingsDir)
                  (Ok (existsSync_answer w settingsDir)) ;;
  (if negb present
   then call (fs_mkdirSync settingsDir true) (mkdirSync_answer w settingsDir)
   else ret tt) ;;
  call (fs_writeFileSync settingsPath settingsXml (js "utf8"))
       (writeFileSync_answer w settingsPath settingsXml).

(** The template literal [settingsXml] of [createMavenSettings]; line
    breaks and indentation are those of the source. *)
Definition settingsXml (accessToken serverId uploadServerId : value) : jsstring :=
  jsq "<?xml version=`1.0` encoding=`UTF-8`?>
<settings xmlns=`http://maven.apache.org/SETTINGS/1.2.0`
          xmlns:xsi=`http://www.w3.org/2001/XMLSchema-instance`
          xsi:schemaLocation=`http://maven.apache.org/SETTINGS/1.2.0 
                              http://maven.apache.org/xsd/settings-1.2.0.xsd`>
    <servers>
        <server>
        <id>" ++
  ToString serverId ++
  jsq "</id>
        <configuration>
            <httpHeaders>
            <property>
                <name>Authorization</name>
                <value>Bearer " ++
  ToString accessToken ++
  jsq "</value>
            </property>
            </httpHeaders>
        </configuration>
        </server>
        <server>
        <id>" ++
  ToString uploadServerId ++
  jsq "</id>
        <configuration>
            <httpHeaders>
            <property>
                <name>Authorization</name>
                <value>Bearer " ++
  ToString accessToken ++
  jsq "</value>
            </property>
            </httpHeaders>
        </configuration>
        </server>
    </servers>
    <mirrors>
        <mirror>
        <id>" ++
  ToString serverId ++
  jsq "</id>
        <name>Curity Maven Repository</name>
        <url>https://hub.curityio.net/repository/curity-dev-repo-group/</url>
        <mirrorOf>*</mirrorOf>
        </mirror>
    </mirrors>
</settings>".

Definition createMavenSettings (w : world)
    (accessToken serverId uploadServerId : value) (settingsPath : jsstring)
  : M jsstring :=
  emit (core_info (js "Creating Maven settings.xml at: " ++ settingsPath)) ;;
  write_settings w settingsPath
    (settingsXml accessToken serverId uploadServerId) ;;
  emit (core_info (js "Maven settings.xml created successfully")) ;;
  ret settingsPath.

(* ================================================================== *)
(** ** run *)

Definition maven_missing_message : jsstring :=
  js "Maven is not available in the environment. Please use an action like actions/setup-java with Maven or setup-maven to install Maven first.".

Definition oauthServerUrl : jsstring :=
  js "https://login.curity.io/internal/oauth-token".
Definition clientId : jsstring := js "curity-cli-github".
Definition scope : jsstring := [].
Definition serverId : jsstring := js "curity-repo".
Definition uploadServerId : jsstring := js "curity-upload-repo".
Definition uploadServerUrl : jsstring :=
  js "https://hub.curityio.net/repository/customer-release-repo/".

Definition settingsPath (w : world) : jsstring :=
  path_join w [os_homedir w; js ".m2"; js "settings.xml"].

Definition run (w : world) : M unit :=
  try_catch
    (mavenAvailable <- checkMavenAvailable w ;;
     if negb mavenAvailable then
       emit (core_setFailed maven_missing_message)
     else
       clientSecret <- call (core_getInput (js "client-secret") true)
                            (input_client_secret w) ;;
       if negb (str_truthy (trim clientSecret)) then
         throw (Error (js "client-secret cannot be empty"))
       else
         accessToken <-
           getAccessToken w oauthServerUrl clientId clientSecret scope ;;
         createdSettingsPath <-
           createMavenSettings w accessToken (VStr serverId)
             (VStr uploadServerId) (settingsPath w) ;;
         emit (core_setOutput (js "settings-file") (VStr createdSettingsPath)) ;;
         emit (core_setSecret accessToken) ;;
         emit (core_setOutput (js "access-token") accessToken) ;;
         let mavenDeployArgs :=
           js "-DaltDeploymentRepository={" ++ uploadServerId ++
           js "}::default::" ++ uploadServerUrl in
         emit (core_setOutput (js "maven-deploy-args") (VStr mavenDeployArgs)) ;;
         emit (core_info (js "Action completed successfully")))
    (fun error =>
       emit (core_setFailed (js "Action failed: " ++ message error))).

(* ================================================================== *)
(** ** The mirror-only generation of the action

    The second copy of [index.js] in the repository: the same probe and
    token exchange, a renderer of three arguments whose document holds
    one mirror with the header on it, and a [run] without the deploy
    arguments. *)

Module MirrorOnly.

(** The template literal [settingsXml] of this generation. *)
Definition settingsXml (accessToken serverId : value) : jsstring :=
  jsq "<?xml version=`1.0` encoding=`UTF-8`?>
<settings xmlns=`http://maven.apache.org/SETTINGS/1.2.0`
          xmlns:xsi=`http://www.w3.org/2001/XMLSchema-instance`
          xsi:schemaLocation=`http://maven.apache.org/SETTINGS/1.2.0 
                              http://maven.apache.org/xsd/settings-1.2.0.xsd`>
    <mirrors>
        <mirror>
        <id>" ++
  ToString serverId ++
  jsq "</id>
        <name>Curity Maven Repository</name>
        <url>https://hub.curityio.net/repository/curity-release-repo/</url>
        <mirrorOf>*</mirrorOf>
        <configuration>
            <httpHeaders>
            <property>
                <name>Authorization</name>
                <value>Bearer " ++
  ToString accessToken ++
  jsq "</value>
            </property>
            </httpHeaders>
        </configuration>
        </mirror>
    </mirrors>
</settings>".

Definition createMavenSettings (w : world)
    (accessToken serverId : value) (settingsPath : jsstring) : M jsstring :=
  emit (core_info (js "Creating Maven settings.xml at: " ++ settingsPath)) ;;
  write_settings w settingsPath (settingsXml accessToken serverId) ;;
  emit (core_info (js "Maven settings.xml created successfully")) ;;
  ret settingsPath.

Definition run (w : world) : M unit :=
  try_catch
    (mavenAvailable <- checkMavenAvailable w ;;
     if negb mavenAvailable then
       emit (core_setFailed maven_missing_message)
     else
       clientSecret <- call (core_getInput (js "client-secret") true)
                            (input_client_secret w) ;;
       if negb (str_truthy (trim clientSecret)) then
         throw (Error (js "client-secret cannot be empty"))
       else
         accessToken <-
           getAccessToken w oauthServerUrl clientId clientSecret scope ;;
         createdSettingsPath <-
           createMavenSettings w accessToken (VStr serverId) (settingsPath w) ;;
         emit (core_setOutput (js "settings-file") (VStr createdSettingsPath)) ;;
         emit (core_setSecret accessToken) ;;
         emit (core_setOutput (js "access-token") accessToken) ;;
         emit (core_info (js "Action completed successfully")))
    (fun error =>
       emit (core_setFailed (js "Action failed: " ++ message error))).

End MirrorOnly.

(* ================================================================== *)
(** ** Reading a settings document back

    A reader for the part of XML 1.0 that Maven settings files use:
    one optional XML declaration, elements with quoted attributes,
    character data, and the five predefined entity references.  A
    document must be made of XML characters (surrogates in pairs
    only); its line ends are normalized (a carriage return, with the
    line feed after it if there is one, reads as one line feed); and
    [[]]>] may not stand in character data.  The reader accepts no
    comments, CDATA sections, document types or character references,
    and rejects documents that hold them.  The renderer's output is
    judged by what this reader makes of it. *)

Module Xml.

Inductive node :=
| Elem (name : jsstring) (attrs : list (jsstring * jsstring))
       (children : list node)
| Text (s : jsstring).

Inductive token :=
| TDecl (body : jsstring)
| TOpen (name : jsstring) (attrs : list (jsstring * jsstring))
| TEmpty (name : jsstring) (attrs : list (jsstring * jsstring))
| TClose (name : jsstring)
| TText (s : jsstring).

(** *** Characters *)

(** The Char production, without the carriage return and the
    surrogates. *)
Definition is_char (c : N) : bool :=
  (c =? 9) || (c =? 10) || ((32 <=? c) && (c <=? 55295)) ||
  ((57344 <=? c) && (c <=? 65533)).

(** The Char production for one code unit of the Basic Multilingual
    Plane. *)
Definition is_bmp_char (c : N) : bool :=
  (c =? 9) || (c =? 10) || (c =? 13) || ((32 <=? c) && (c <=? 55295)) ||
  ((57344 <=? c) && (c <=? 65533)).

(** The Char production over a whole text: each code unit is a
    character of the Basic Multilingual Plane, or a high surrogate with
    the low surrogate that completes it. *)
Fixpoint chars_ok (s : jsstring) : bool :=
  match s with
  | [] => true
  | c :: rest =>
      if is_high_surrogate c then
        match rest with
        | d :: rest' => is_low_surrogate d && chars_ok rest'
        | [] => false
        end
      else is_bmp_char c && chars_ok rest
  end.

(** End-of-line handling: [CR LF] and a lone [CR] read as [LF]. *)
Fixpoint normalize_eol (s : jsstring) : jsstring :=
  match s with
  | [] => []
  | c :: rest =>
      if c =? 13 then
        match rest with
        | d :: rest' =>
            if d =? 10 then 10 :: normalize_eol rest'
            else 10 :: normalize_eol rest
        | [] => [10]
        end
      else c :: normalize_eol rest
  end.

(** Character data that ends in [[]]]: a [>] may not follow it. *)
Definition ends_cdata (text : jsstring) : bool :=
  starts_with [93; 93] (rev text).

Definition is_space (c : N) : bool := (c =? 32) || (c =? 9) || (c =? 10).

Definition is_name_start (c : N) : bool :=
  ((65 <=? c) && (c <=? 90)) || ((97 <=? c) && (c <=? 122)) ||
  (c =? 95) || (c =? 58) || (128 <=? c).

Definition is_name_char (c : N) : bool :=
  is_name_start c || ((48 <=? c) && (c <=? 57)) || (c =? 45) || (c =? 46).

Definition valid_name (n : jsstring) : bool :=
  match n with
  | [] => false
  | c :: _ => is_name_start c && forallb is_name_char n
  end.

(** Character data the reader takes as it stands: legal characters
    other than the three markup characters. *)
Definition plain_char (c : N) : bool :=
  is_char c && negb (c =? 60) && negb (c =? 38) && negb (c =? 62).

Definition plain (s : jsstring) : bool := forallb plain_char s.

(** Character data that stands for itself in a document: XML
    characters, none of them [&], [<] or a carriage return, and without
    [[]]>] among them. *)
Definition literal_unit (c : N) : bool :=
  negb (c =? 38) && negb (c =? 60) && negb (c =? 13).

Definition literal (s : jsstring) : bool :=
  chars_ok s && forallb literal_unit s && negb (includes s (js "]]>")).

Definition entity (name : jsstring) : option N :=
  if str_eqb name (js "amp") then Some 38
  else if str_eqb name (js "lt") then Some 60
  else if str_eqb name (js "gt") then Some 62
  else if str_eqb name (js "quot") then Some 34
  else if str_eqb name (js "apos") then Some 39
  else None.

(** *** Tags *)

Fixpoint span (p : N -> bool) (s : jsstring) : jsstring * jsstring :=
  match s with
  | [] => ([], [])
  | c :: rest =>
      if p c then let '(a, b) := span p rest in (c :: a, b) else ([], s)
  end.

Fixpoint skip_spaces (s : jsstring) : jsstring :=
  match s with
  | [] => []
  | c :: rest => if is_space c then skip_spaces rest else s
  end.

Definition starts_spaced (s : jsstring) : bool :=
  match s with
  | [] => true
  | c :: _ => is_space c
  end.

(** [name="value"] pairs separated by white space; a value holds
    neither its own quote nor [&]; no name occurs twice. *)
Fixpoint parse_attrs (fuel : nat) (s : jsstring)
  : option (list (jsstring * jsstring)) :=
  match fuel with
  | O => None
  | S fuel' =>
      match skip_spaces s with
      | [] => Some []
      | s1 =>
          let '(n, r) := span is_name_char s1 in
          if valid_name n then
            match skip_spaces r with
            | 61 :: r1 =>
                match skip_spaces r1 with
                | q :: r2 =>
                    if (q =? 34) || (q =? 39) then
                      let '(v, r3) :=
                        span (fun c => negb (c =? q) && negb (c =? 38)) r2 in
                      match r3 with
                      | q' :: r4 =>
                          if (q' =? q) && starts_spaced r4 then
                            match parse_attrs fuel' r4 with
                            | Some rest =>
                                if existsb (fun kv => str_eqb (fst kv) n) rest
                                then None
                                else Some ((n, v) :: rest)
                            | None => None
                            end
                          else None
                      | [] => None
                      end
                    else None
                | [] => None
                end
            | _ => None
            end
          else None
      end
  end.

Definition drop_last (s : jsstring) : jsstring := removelast s.

(** The token of a tag, from the text between [<] and [>]. *)
Definition tag_token (body : jsstring) : option token :=
  match body with
  | 63 :: rest =>
      if starts_with (js "xml ") rest && (last rest 0 =? 63)
      then Some (TDecl (drop_last rest)) else None
  | 33 :: _ => None
  | 47 :: rest =>
      let '(n, r) := span is_name_char rest in
      if valid_name n && forallb is_space r then Some (TClose n) else None
  | _ =>
      let '(n, r) := span is_name_char body in
      if valid_name n && starts_spaced r || valid_name n && str_eqb r [47] then
        if last r 0 =? 47 then
          match parse_attrs (S (length r)) (drop_last r) with
          | Some a => Some (TEmpty n a)
          | None => None
          end
        else
          match parse_attrs (S (length r)) r with
          | Some a => Some (TOpen n a)
          | None => None
          end
      else None
  end.

(** *** The lexer: one step per code unit *)

Inductive mode := InText | InEntity | InTag | InQuote (q : N) | Failed.

Record lexer := {
  lmode : mode;
  ltext : jsstring;    (* character data read since the last tag *)
  lbuf : jsstring;     (* the tag or entity name being read *)
  ltoks : list token   (* tokens read so far, last first *)
}.

Definition lex_init : lexer :=
  {| lmode := InText; ltext := []; lbuf := []; ltoks := [] |}.

Definition lex_fail (st : lexer) : lexer :=
  {| lmode := Failed; ltext := ltext st; lbuf := lbuf st; ltoks := ltoks st |}.

Definition lex_step (st : lexer) (c : N) : lexer :=
  match lmode st with
  | Failed => st
  | InText =>
      if c =? 60 then
        {| lmode := InTag; ltext := []; lbuf := [];
           ltoks := TText (ltext st) :: ltoks st |}
      else if c =? 38 then
        {| lmode := InEntity; ltext := ltext st; lbuf := [];
           ltoks := ltoks st |}
      else if (c =? 62) && ends_cdata (ltext st) then lex_fail st
      else
        {| lmode := InText; ltext := ltext st ++ [c]; lbuf := [];
           ltoks := ltoks st |}
  | InEntity =>
      if c =? 59 then
        match entity (lbuf st) with
        | Some d =>
            {| lmode := InText; ltext := ltext st ++ [d]; lbuf := [];
               ltoks := ltoks st |}
        | None => lex_fail st
        end
      else
        {| lmode := InEntity; ltext := ltext st; lbuf := lbuf st ++ [c];
           ltoks := ltoks st |}
  | InTag =>
      if c =? 62 then
        match tag_token (lbuf st) with
        | Some t =>
            {| lmode := InText; ltext := []; lbuf := [];
               ltoks := t :: ltoks st |}
        | None => lex_fail st
        end
      else if c =? 60 then lex_fail st
      else
        {| lmode := if (c =? 34) || (c =? 39) then InQuote c else InTag;
           ltext := []; lbuf := lbuf st ++ [c]; ltoks := ltoks st |}
  | InQuote q =>
      if c =? 60 then lex_fail st
      else
        {| lmode := if c =? q then InTag else InQuote q;
           ltext := []; lbuf := lbuf st ++ [c]; ltoks := ltoks st |}
  end.

Definition scan (st : lexer) (s : jsstring) : lexer := fold_left lex_step s st.

Definition lex_finish (st : lexer) : option (list token) :=
  match lmode st with
  | InText => Some (rev (TText (ltext st) :: ltoks st))
  | _ => None
  end.

(** *** The tree builder: a stack of open elements *)

Record frame := {
  fname : jsstring;
  fattrs : list (jsstring * jsstring);
  fkids : list node   (* children read so far, last first *)
}.

Definition builder : Type := list frame * option node.

Definition add_child (n : node) (b : builder) : option builder :=
  match b with
  | (f :: fs, r) =>
      Some ({| fname := fname f; fattrs := fattrs f; fkids := n :: fkids f |}
            :: fs, r)
  | ([], r) =>
      match n, r with
      | Text s, _ => if forallb is_space s then Some b else None
      | Elem _ _ _, None => Some ([], Some n)
      | Elem _ _ _, Some _ => None
      end
  end.

Definition build_step (b : builder) (t : token) : option builder :=
  match t with
  | TDecl _ => None
  | TText s => add_child (Text s) b
  | TEmpty n a => add_child (Elem n a []) b
  | TOpen n a =>
      match b with
      | ([], Some _) => None
      | (fs, r) => Some ({| fname := n; fattrs := a; fkids := [] |} :: fs, r)
      end
  | TClose n =>
      match b with
      | (f :: fs, r) =>
          if str_eqb (fname f) n
          then add_child (Elem (fname f) (fattrs f) (rev (fkids f))) (fs, r)
          else None
      | ([], _) => None
      end
  end.

Fixpoint build_from (b : builder) (toks : list token) : option node :=
  match toks with
  | [] => match b with
          | ([], Some r) => Some r
          | _ => None
          end
  | t :: rest =>
      match build_step b t with
      | Some b' => build_from b' rest
      | None => None
      end
  end.

(** The declaration, when there is one, is the first thing in the
    document. *)
Definition build (toks : list token) : option node :=
  match toks with
  | TText [] :: TDecl _ :: rest => build_from ([], None) rest
  | _ => build_from ([], None) toks
  end.

Definition parse_state (st : lexer) : option node :=
  match lex_finish st with
  | Some toks => build toks
  | None => None
  end.

(** [parse doc] is the document tree, or [None] when [doc] is not
    well-formed. *)
Definition parse (doc : jsstring) : option node :=
  if chars_ok doc then parse_state (scan lex_init (normalize_eol doc))
  else None.

Definition well_formed (doc : jsstring) : bool :=
  match parse doc with Some _ => true | None => false end.

(** *** Queries *)

Definition kids (n : node) : list node :=
  match n with
  | Elem _ _ k => k
  | Text _ => []
  end.

Definition named (nm : jsstring) (n : node) : bool :=
  match n with
  | Elem m _ _ => str_eqb m nm
  | Text _ => false
  end.

Definition children_named (nm : jsstring) (n : node) : list node :=
  filter (named nm) (kids n).

(** The character data directly inside an element. *)
Fixpoint text_in (ks : list node) : jsstring :=
  match ks with
  | [] => []
  | Text s :: rest => s ++ text_in rest
  | Elem _ _ _ :: rest => text_in rest
  end.

Definition text_of (n : node) : jsstring := text_in (kids n).

(** The elements reached from [ns] along a path of element names. *)
Fixpoint select (path : list jsstring) (ns : list node) : list node :=
  match path with
  | [] => ns
  | p :: rest => select rest (flat_map (children_named p) ns)
  end.

(** The text of the children called [nm], one entry per child. *)
Definition field (nm : jsstring) (n : node) : list jsstring :=
  List.map text_of (children_named nm n).

End Xml.

(** *** Maven settings read from a document tree *)

(** The HTTP header properties of a server or mirror: the [name] and
    [value] texts of each
    [configuration/httpHeaders/property]. *)
Definition http_headers (n : Xml.node) : list (list jsstring * list jsstring) :=
  List.map (fun p => (Xml.field (js "name") p, Xml.field (js "value") p))
    (Xml.select [js "configuration"; js "httpHeaders"; js "property"] [n]).

Record server_entry := {
  server_id : list jsstring;
  server_headers : list (list jsstring * list jsstring)
}.

Record mirror_entry := {
  mirror_id : list jsstring;
  mirror_url : list jsstring;
  mirror_of : list jsstring;
  mirror_headers : list (list jsstring * list jsstring)
}.

Definition is_settings (root : Xml.node) : bool := Xml.named (js "settings") root.

Definition server_entries (root : Xml.node) : list server_entry :=
  List.map (fun s => {| server_id := Xml.field (js "id") s;
                        server_headers := http_headers s |})
    (Xml.select [js "servers"; js "server"] [root]).

Definition mirror_entries (root : Xml.node) : list mirror_entry :=
  List.map (fun m => {| mirror_id := Xml.field (js "id") m;
                        mirror_url := Xml.field (js "url") m;
                        mirror_of := Xml.field (js "mirrorOf") m;
                        mirror_headers := http_headers m |})
    (Xml.select [js "mirrors"; js "mirror"] [root]).

(** The two shapes of settings document the specification tells apart:
    the single-mirror variant has no server entry and one mirror that
    carries the header itself; the dual-server variant has a servers
    section next to its one mirror rule. *)
Inductive variant := SingleMirror | DualServer.

Definition variant_of (root : Xml.node) : option variant :=
  match server_entries root, mirror_entries root with
  | [], [m] =>
      match mirror_headers m with
      | [] => None
      | _ :: _ => Some SingleMirror
      end
  | _ :: _, [_] => Some DualServer
  | _, _ => None
  end.

Definition dev_repository_url : jsstring :=
  js "https://hub.curityio.net/repository/curity-dev-repo-group/".
Definition release_repository_url : jsstring :=
  js "https://hub.curityio.net/repository/curity-release-repo/".

(* ================================================================== *)
(** ** Observations on traces *)

(** The events an action adds when it starts after [tr]. *)
Definition events_of {A} (m : M A) (tr : list event) : list event :=
  skipn (length tr) (snd (m tr)).

Fixpoint network_calls (tr : list event) : nat :=
  match tr with
  | [] => 0
  | axios_post _ _ _ _ :: rest => S (network_calls rest)
  | _ :: rest => network_calls rest
  end.

(** The messages passed to [core.setFailed], in order. *)
Fixpoint failures (tr : list event) : list jsstring :=
  match tr with
  | [] => []
  | core_setFailed msg :: rest => msg :: failures rest
  | _ :: rest => failures rest
  end.

(** The files written, as path and content, in order. *)
Fixpoint written (tr : list event) : list (jsstring * jsstring) :=
  match tr with
  | [] => []
  | fs_writeFileSync p c _ :: rest => (p, c) :: written rest
  | _ :: rest => written rest
  end.

(** The outputs set through [core.setOutput], as name and value. *)
Fixpoint outputs (tr : list event) : list (jsstring * value) :=
  match tr with
  | [] => []
  | core_setOutput n v :: rest => (n, v) :: outputs rest
  | _ :: rest => outputs rest
  end.

(** The values registered for masking through [core.setSecret]. *)
Fixpoint secrets (tr : list event) : list value :=
  match tr with
  | [] => []
  | core_setSecret v :: rest => v :: secrets rest
  | _ :: rest => secrets rest
  end.

(** The values set as the [access-token] output. *)
Definition token_outputs (tr : list event) : list value :=
  List.map snd
    (filter (fun o => str_eqb (fst o) (js "access-token")) (outputs tr)).

(** The [access-token] outputs set before anything was registered for
    masking. *)
Fixpoint outputs_before_masking (tr : list event) : list value :=
  match tr with
  | [] => []
  | core_setSecret _ :: _ => []
  | core_setOutput n v :: rest =>
      if str_eqb n (js "access-token")
      then v :: outputs_before_masking rest
      else outputs_before_masking rest
  | _ :: rest => outputs_before_masking rest
  end.

(** The POST requests made: URL, form parameters, headers, timeout. *)
Fixpoint requests (tr : list event)
  : list (jsstring * list (jsstring * jsstring) *
          list (jsstring * jsstring) * Z) :=
  match tr with
  | [] => []
  | axios_post url params headers timeout :: rest =>
      (url, params, headers, timeout) :: requests rest
  | _ :: rest => requests rest
  end.

(** The directories made, with the [recursive] option. *)
Fixpoint mkdirs (tr : list event) : list (jsstring * bool) :=
  match tr with
  | [] => []
  | fs_mkdirSync p r :: rest => (p, r) :: mkdirs rest
  | _ :: rest => mkdirs rest
  end.

(** The messages logged through [core.info]. *)
Fixpoint infos (tr : list event) : list jsstring :=
  match tr with
  | [] => []
  | core_info msg :: rest => msg :: infos rest
  | _ :: rest => infos rest
  end.

(** A string with a code unit that [trim] keeps. *)
Definition nonblank (s : jsstring) : bool :=
  existsb (fun c => negb (is_js_whitespace c)) s.

(** The documents an action writes when it starts after [tr]. *)
Definition rendered {A} (m : M A) (tr : list event) : list jsstring :=
  List.map snd (written (events_of m tr)).

(** What the probe finds and logs, read off the world. *)
Definition mvn_found (w : world) : bool :=
  match exec_mvn_version w with
  | ExecExit code _ => (code =? 0)%Z
  | ExecReject _ _ => false
  end.

Definition probe_events (w : world) : list event :=
  exec_exec (js "mvn") [js "--version"] true ::
  match exec_mvn_version w with
  | ExecExit code chunks =>
      if (code =? 0)%Z
      then [core_info (js "Maven is available: " ++ first_line (concat chunks))]
      else []
  | ExecReject _ e => [core_debug (js "Maven check failed: " ++ message e)]
  end.

(** The events every token request begins with. *)
Definition request_events (url id secret sc : jsstring) : list event :=
  [core_info (js "Requesting OAuth access token...");
   axios_post url (token_request_params id secret sc) token_request_headers
     30000].

(** Whether the renderer gets as far as writing the file: the directory
    is there, or making it succeeds. *)
Definition reaches_write (w : world) (p : jsstring) : bool :=
  existsSync_answer w (path_dirname w p) ||
  match mkdirSync_answer w (path_dirname w p) with
  | Ok _ => true
  | Throw _ => false
  end.

(** The failure kinds of the token exchange, as the three messages of
    the [catch] block in [getAccessToken] tell them apart. *)
Inductive failure_kind := ServerRejected | Unreachable | RequestError.

Definition kind_of_message (msg : jsstring) : option failure_kind :=
  if starts_with (js "OAuth request failed with status ") msg
  then Some ServerRejected
  else if starts_with (js "No response received from OAuth server: ") msg
  then Some Unreachable
  else if starts_with (js "OAuth request error: ") msg
  then Some RequestError
  else None.

(** [path.isAbsolute] on a POSIX runner. *)
Definition isAbsolute (p : jsstring) : bool := starts_with (js "/") p.

(* ================================================================== *)
(** ** A sample runner

    A POSIX runner on which every file operation succeeds; the Maven
    probe, the secret input and the token endpoint are left open. *)

Definition posix_join (parts : list jsstring) : jsstring := join (js "/") parts.

Definition posix_dirname (p : jsstring) : jsstring :=
  match snd (Xml.span (fun c => negb (c =? 47)) (rev p)) with
  | [] => js "."
  | [_] => js "/"
  | _ :: rest => rev rest
  end.

Definition runner (probe : exec_outcome) (secret : result jsstring)
    (answer : axios_outcome) : world :=
  {| exec_mvn_version := probe;
     input_client_secret := secret;
     axios_answer := fun _ _ => answer;
     os_homedir := js "/home/runner";
     path_join := posix_join;
     path_dirname := posix_dirname;
     existsSync_answer := fun _ => false;
     mkdirSync_answer := fun _ => Ok tt;
     writeFileSync_answer := fun _ _ => Ok tt |}.

Definition maven_present : exec_outcome :=
  ExecExit 0 [js "Apache Maven 3.9.6" ++ [10]; js "Java version: 17.0.9" ++ [10]].

Definition maven_absent : exec_outcome :=
  ExecReject [] (Error (js "Unable to locate executable file: mvn")).

Definition token_granted (t : jsstring) : axios_outcome :=
  Resolved {| status := 200;
              data := VObj [(js "access_token", VStr t);
                            (js "token_type", VStr (js "Bearer"));
                            (js "expires_in", VNum 3600)] |}.

Definition invalid_client_body : value :=
  VObj [(js "error", VStr (js "invalid_client"))].

Definition rejected_with (code : Z) (body : value) : axios_outcome :=
  Rejected {| message := js "Request failed with status code " ++ dec code;
              response := Some {| status := code; data := body |};
              request := true |}.

Definition sample_runner : world :=
  runner maven_present (Ok (js "s3cr3t")) (token_granted (js "T")).

(** The value [run] gives to the [maven-deploy-args] output. *)
Definition mavenDeployArgs : jsstring :=
  js "-DaltDeploymentRepository={" ++ uploadServerId ++
  js "}::default::" ++ uploadServerUrl.

(** The last events of a successful [run]: the three outputs, the token
    masked before it is output, and the closing log line. *)
Definition closing_events (w : world) (tok : value) : list event :=
  [core_setOutput (js "settings-file") (VStr (settingsPath w));
   core_setSecret tok;
   core_setOutput (js "access-token") tok;
   core_setOutput (js "maven-deploy-args") (VStr mavenDeployArgs);
   core_info (js "Action completed successfully")].

(** The last events of a successful [MirrorOnly.run]. *)
Definition mirror_only_closing_events (w : world) (tok : value) : list event :=
  [core_setOutput (js "settings-file") (VStr (settingsPath w));
   core_setSecret tok;
   core_setOutput (js "access-token") tok;
   core_info (js "Action completed successfully")].

(** The attributes of an element. *)
Definition attributes_of (n : Xml.node) : list (jsstring * jsstring) :=
  match n with
  | Xml.Elem _ a _ => a
  | Xml.Text _ => []
  end.

(* ================================================================== *)
(** * Properties *)

(** ** Traces *)

Lemma skipn_past {A} (l r : list A) : skipn (length l) (l ++ r) = r.
Proof. induction l as [|x l IH]; [reflexivity | exact IH]. Qed.

Lemma network_calls_app (a b : list event) :
  network_calls (a ++ b) = (network_calls a + network_calls b)%nat.
Proof.
  induction a as [|e a IH]; [reflexivity|].
  destruct e; cbn [app network_calls]; rewrite IH; reflexivity.
Qed.

Lemma failures_app (a b : list event) :
  failures (a ++ b) = failures a ++ failures b.
Proof.
  induction a as [|e a IH]; [reflexivity|].
  destruct e; cbn [app failures]; rewrite IH; reflexivity.
Qed.

Lemma written_app (a b : list event) :
  written (a ++ b) = written a ++ written b.
Proof.
  induction a as [|e a IH]; [reflexivity|].
  destruct e; cbn [app written]; rewrite IH; reflexivity.
Qed.

Lemma probe_events_quiet (w : world) :
  network_calls (probe_events w) = 0%nat /\ failures (probe_events w) = [].
Proof.
  unfold probe_events.
  destruct (exec_mvn_version w) as [code chunks|chunks e].
  - destruct (code =? 0)%Z; split; reflexivity.
  - split; reflexivity.
Qed.

(** ** The probe *)

Arguments probe_events : simpl never.

Lemma checkMavenAvailable_eq (w : world) (tr : list event) :
  checkMavenAvailable w tr = (Ok (mvn_found w), tr ++ probe_events w).
Proof.
  unfold checkMavenAvailable, bind, try_catch, exec_mvn, mvn_found, probe_events.
  destruct (exec_mvn_version w) as [code chunks|chunks e].
  - destruct (code =? 0)%Z; cbn; rewrite <- ?app_assoc; reflexivity.
  - cbn. rewrite <- app_assoc. reflexivity.
Qed.

(** C9.  [checkMavenAvailable] always returns a boolean and never
    throws, whatever the version check does (a rejection included); the
    boolean is [true] exactly when the check resolved with exit code 0. *)
Theorem checkMavenAvailable_total (w : world) (tr : list event) :
  exists (b : bool) (tr' : list event),
    checkMavenAvailable w tr = (Ok b, tr') /\
    (b = true <-> exists out, exec_mvn_version w = ExecExit 0 out).
Proof.
  exists (mvn_found w), (tr ++ probe_events w).
  split; [apply checkMavenAvailable_eq|].
  unfold mvn_found.
  destruct (exec_mvn_version w) as [code chunks|chunks e].
  - split.
    + intros H. apply Z.eqb_eq in H. subst code. now exists chunks.
    + intros [out H]. injection H as -> _. reflexivity.
  - split; [discriminate|]. intros [out H]. discriminate.
Qed.

(** ** run *)

Lemma run_without_maven (w : world) (tr : list event) :
  mvn_found w = false ->
  run w tr = (Ok tt, tr ++ probe_events w ++ [core_setFailed maven_missing_message])
  /\ MirrorOnly.run w tr =
     (Ok tt, tr ++ probe_events w ++ [core_setFailed maven_missing_message]).
Proof.
  intros H.
  unfold run, MirrorOnly.run, try_catch, bind, emit.
  rewrite checkMavenAvailable_eq, H. cbn.
  rewrite <- app_assoc. split; reflexivity.
Qed.

(** C7.  When the probe reports that Maven is missing, [run] ends
    with the one failure "Maven is not available ..." and its trace
    holds no token request: no network call is made in such a run.
    Both generations of [run] behave so. *)
Theorem run_aborts_without_maven (w : world) :
  outcome (checkMavenAvailable w) = Ok false ->
  (outcome (run w) = Ok tt /\
   failures (trace (run w)) = [maven_missing_message] /\
   network_calls (trace (run w)) = 0%nat) /\
  (outcome (MirrorOnly.run w) = Ok tt /\
   failures (trace (MirrorOnly.run w)) = [maven_missing_message] /\
   network_calls (trace (MirrorOnly.run w)) = 0%nat).
Proof.
  unfold outcome, trace. rewrite checkMavenAvailable_eq. cbn [fst].
  intros H. injection H as H.
  destruct (run_without_maven w [] H) as [E1 E2].
  destruct (probe_events_quiet w) as [Hn Hf].
  rewrite E1, E2. cbn [fst snd app].
  rewrite !network_calls_app, !failures_app, Hn, Hf.
  repeat split.
Qed.

Lemma run_aborts_without_maven_witness :
  outcome (checkMavenAvailable (runner maven_absent (Ok (js "s3cr3t"))
                                  (token_granted (js "T")))) = Ok false /\
  network_calls (trace (run (runner maven_absent (Ok (js "s3cr3t"))
                               (token_granted (js "T"))))) = 0%nat.
Proof.
  split; [reflexivity|].
  apply (run_aborts_without_maven
           (runner maven_absent (Ok (js "s3cr3t")) (token_granted (js "T")))).
  reflexivity.
Defined.

Lemma blank_trim (s : jsstring) :
  forallb is_js_whitespace s = true -> trim s = [].
Proof.
  intros H. unfold trim.
  assert (E : trim_start s = []).
  { induction s as [|c s IH]; [reflexivity|].
    cbn [forallb] in H. apply andb_prop in H. destruct H as [Hc Hs].
    cbn [trim_start]. rewrite Hc. exact (IH Hs). }
  rewrite E. reflexivity.
Qed.

Lemma run_blank_secret (w : world) (secret : jsstring) (tr : list event) :
  mvn_found w = true ->
  input_client_secret w = Ok secret ->
  forallb is_js_whitespace secret = true ->
  let evs := probe_events w ++
             [core_getInput (js "client-secret") true;
              core_setFailed (js "Action failed: client-secret cannot be empty")] in
  run w tr = (Ok tt, tr ++ evs) /\ MirrorOnly.run w tr = (Ok tt, tr ++ evs).
Proof.
  intros Hm Hi Hb.
  unfold run, MirrorOnly.run, try_catch, bind, call, throw, emit.
  rewrite checkMavenAvailable_eq, Hm, Hi, (blank_trim _ Hb). cbn.
  rewrite <- !app_assoc. split; reflexivity.
Qed.

(** A secret input that [core.getInput] refuses (it throws for a
    required input that is not supplied) ends the run the same way:
    one failure carrying the thrown message, and no network call. *)
Lemma run_input_refused (w : world) (e : error) :
  mvn_found w = true ->
  input_client_secret w = Throw e ->
  failures (trace (run w)) = [js "Action failed: " ++ message e] /\
  network_calls (trace (run w)) = 0%nat.
Proof.
  intros Hm Hi.
  destruct (probe_events_quiet w) as [Hn Hf].
  unfold trace, run, try_catch, bind, call, emit.
  rewrite checkMavenAvailable_eq, Hm, Hi. cbn -[js].
  rewrite <- !app_assoc, network_calls_app, failures_app, Hn, Hf.
  split; reflexivity.
Qed.

(** C4, as the code has it.  Let the secret handed to the action be
    empty or made of white space only: [core.getInput] returns a text
    of white space, or it throws, as it does for a required input that
    is empty.  Then the run issues no network call and ends in exactly
    one failure.  Which failure depends on the Maven probe, which runs
    first.  Once the probe has passed it is the invalid-input failure:
    "client-secret cannot be empty" for the text that was returned, the
    message [core.getInput] threw otherwise.  When the probe has found
    no Maven it is the Maven failure, and the secret is not looked
    at. *)
Theorem run_rejects_blank_secret (w : world) :
  match input_client_secret w with
  | Ok secret => forallb is_js_whitespace secret = true
  | Throw _ => True
  end ->
  network_calls (trace (run w)) = 0%nat /\
  (exists msg, failures (trace (run w)) = [msg]) /\
  (outcome (checkMavenAvailable w) = Ok true ->
   failures (trace (run w)) =
     [js "Action failed: " ++
      match input_client_secret w with
      | Ok _ => js "client-secret cannot be empty"
      | Throw e => message e
      end]) /\
  (outcome (checkMavenAvailable w) = Ok false ->
   failures (trace (run w)) = [maven_missing_message]).
Proof.
  intros Hb.
  destruct (probe_events_quiet w) as [Hn Hf].
  unfold outcome. rewrite checkMavenAvailable_eq. cbn [fst].
  destruct (mvn_found w) eqn:Hm.
  - destruct (input_client_secret w) as [secret|e] eqn:Hi.
    + destruct (run_blank_secret w secret [] Hm Hi Hb) as [E _].
      unfold trace. rewrite E. cbn [snd app].
      rewrite network_calls_app, failures_app, Hn, Hf.
      split; [reflexivity|]. split; [eexists; reflexivity|].
      split; [reflexivity | discriminate].
    + destruct (run_input_refused w e Hm Hi) as [F N].
      rewrite F, N.
      split; [reflexivity|]. split; [eexists; reflexivity|].
      split; [reflexivity | discriminate].
  - destruct (run_without_maven w [] Hm) as [E _].
    unfold trace. rewrite E. cbn [snd app].
    rewrite network_calls_app, failures_app, Hn, Hf.
    split; [reflexivity|]. split; [eexists; reflexivity|].
    split; [discriminate | reflexivity].
Qed.

Lemma run_rejects_blank_secret_witness :
  forallb is_js_whitespace [32; 9; 160; 10] = true /\
  network_calls
    (trace (run (runner maven_present (Ok [32; 9; 160; 10])
                   (token_granted (js "T"))))) = 0%nat /\
  failures
    (trace (run (runner maven_present (Ok [32; 9; 160; 10])
                   (token_granted (js "T"))))) =
    [js "Action failed: client-secret cannot be empty"].
Proof.
  split; [reflexivity|].
  destruct (run_rejects_blank_secret
              (runner maven_present (Ok [32; 9; 160; 10])
                 (token_granted (js "T")))
              eq_refl) as [Hn [_ [Hf _]]].
  split; [exact Hn | exact (Hf eq_refl)].
Defined.

(** C4 as stated fails.  On a runner without Maven an empty secret, or
    one of white space, does not make the run fail with the
    invalid-input failure: the one failure reported is the Maven one,
    which says nothing of the secret. *)
Lemma blank_secret_without_maven :
  failures (trace (run (runner maven_absent (Ok []) (token_granted (js "T"))))) =
    [maven_missing_message] /\
  failures (trace (run (runner maven_absent (Ok [32; 9])
                          (token_granted (js "T"))))) =
    [maven_missing_message] /\
  maven_missing_message <> js "Action failed: client-secret cannot be empty" /\
  includes maven_missing_message (js "client-secret") = false /\
  network_calls
    (trace (run (runner maven_absent (Ok []) (token_granted (js "T"))))) = 0%nat.
Proof.
  split; [reflexivity|]. split; [reflexivity|].
  split; [discriminate|]. split; reflexivity.
Qed.

(** The whole action on the sample runner: one token request, one file
    written under the home directory, no failure. *)
Example run_on_sample_runner :
  outcome (run sample_runner) = Ok tt /\
  failures (trace (run sample_runner)) = [] /\
  network_calls (trace (run sample_runner)) = 1%nat /\
  written (trace (run sample_runner)) =
    [(js "/home/runner/.m2/settings.xml",
      settingsXml (VStr (js "T")) (VStr serverId) (VStr uploadServerId))].
Proof. repeat split. Qed.

(** ** getAccessToken *)

Lemma starts_with_app (p b : jsstring) : starts_with p (p ++ b) = true.
Proof.
  induction p as [|c p IH]; [reflexivity|].
  cbn. now rewrite N.eqb_refl.
Qed.

Lemma starts_with_refl (p : jsstring) : starts_with p p = true.
Proof.
  induction p as [|c p IH]; [reflexivity|].
  cbn. now rewrite N.eqb_refl.
Qed.

Lemma includes_here (s p : jsstring) :
  starts_with p s = true -> includes s p = true.
Proof. intros H. destruct s; cbn; rewrite H; reflexivity. Qed.

Lemma includes_skip (a s p : jsstring) :
  includes s p = true -> includes (a ++ s) p = true.
Proof.
  intros H. induction a as [|c a IH]; [exact H|].
  cbn [app includes]. rewrite IH. apply orb_true_r.
Qed.

Lemma includes_middle (a p b : jsstring) : includes (a ++ p ++ b) p = true.
Proof. apply includes_skip, includes_here, starts_with_app. Qed.

Lemma getAccessToken_malformed (w : world) (url id secret sc : jsstring)
    (r : http_response) (tr : list event) :
  axios_answer w url (token_request_params id secret sc) = Resolved r ->
  ((status r =? 200)%Z && truthy (data r)
   && truthy (get (data r) (js "access_token"))) = false ->
  getAccessToken w url id secret sc tr =
    (Throw (Error (js "OAuth request error: No access token in response")),
     tr ++ request_events url id secret sc).
Proof.
  intros Ha Hc.
  unfold getAccessToken, bind, try_catch, call, emit, throw.
  rewrite Ha, Hc. cbn. rewrite <- app_assoc. reflexivity.
Qed.

(** A 200 response with a truthy [access_token] is the one success:
    the token is returned as it came. *)
Lemma getAccessToken_success (w : world) (url id secret sc : jsstring)
    (r : http_response) (tr : list event) :
  axios_answer w url (token_request_params id secret sc) = Resolved r ->
  status r = 200%Z ->
  truthy (get (data r) (js "access_token")) = true ->
  getAccessToken w url id secret sc tr =
    (Ok (get (data r) (js "access_token")),
     tr ++ request_events url id secret sc ++
     [core_info (js "Successfully obtained access token")]).
Proof.
  intros Ha Hs Ht.
  assert (Hd : truthy (data r) = true).
  { destruct (data r); try discriminate; reflexivity. }
  unfold getAccessToken, bind, try_catch, call, emit, ret.
  rewrite Ha, Hs, Hd, Ht. cbn. rewrite <- !app_assoc. reflexivity.
Qed.

Section FailureKinds.

Variables (w : world) (url id secret sc : jsstring).

Lemma kind_of_server_rejection (detail : jsstring) :
  kind_of_message (js "OAuth request failed with status " ++ detail) =
  Some ServerRejected.
Proof. unfold kind_of_message. now rewrite starts_with_app. Qed.

Lemma kind_of_no_response (detail : jsstring) :
  kind_of_message (js "No response received from OAuth server: " ++ detail) =
  Some Unreachable.
Proof.
  unfold kind_of_message.
  rewrite (starts_with_app (js "No response received from OAuth server: ")).
  reflexivity.
Qed.

Lemma kind_of_request_error (detail : jsstring) :
  kind_of_message (js "OAuth request error: " ++ detail) = Some RequestError.
Proof.
  unfold kind_of_message.
  rewrite (starts_with_app (js "OAuth request error: ")).
  reflexivity.
Qed.

(** Every way the token exchange can end: with a truthy token, or
    with an error whose message is of one of the three kinds. *)
Lemma getAccessToken_outcomes (tr : list event) :
  (exists v, fst (getAccessToken w url id secret sc tr) = Ok v /\
             truthy v = true) \/
  (exists e k, fst (getAccessToken w url id secret sc tr) = Throw e /\
               kind_of_message (message e) = Some k).
Proof.
  unfold getAccessToken, bind, try_catch, call, emit, ret, throw.
  destruct (axios_answer w url (token_request_params id secret sc))
    as [r|e]; cbn [fst snd].
  - destruct ((status r =? 200)%Z && truthy (data r)) eqn:E1;
      cbn [andb].
    + destruct (truthy (get (data r) (js "access_token"))) eqn:E2.
      * left. eexists. split; [reflexivity | exact E2].
      * right. do 2 eexists. split; [reflexivity|].
        apply (kind_of_request_error (js "No access token in response")).
    + right. do 2 eexists. split; [reflexivity|].
      apply (kind_of_request_error (js "No access token in response")).
  - right. destruct (response e) as [r|].
    + do 2 eexists. split; [reflexivity|]. apply kind_of_server_rejection.
    + destruct (request e); do 2 eexists;
        (split; [reflexivity|]);
        [apply kind_of_no_response | apply kind_of_request_error].
Qed.

End FailureKinds.



Lemma getAccessToken_rejected (w : world) (url id secret sc : jsstring)
    (e : error) (r : http_response) (tr : list event) :
  axios_answer w url (token_request_params id secret sc) = Rejected e ->
  response e = Some r ->
  getAccessToken w url id secret sc tr =
    (Throw (Error (js "OAuth request failed with status " ++
                   dec (status r) ++ js ": " ++
                   interp (JSON_stringify (data r)))),
     tr ++ request_events url id secret sc).
Proof.
  intros Ha Hr.
  unfold getAccessToken, bind, try_catch, call, emit, throw.
  rewrite Ha. cbn -[js]. rewrite Hr. rewrite <- app_assoc. reflexivity.
Qed.




(** C5, as the code has it.  When the request is rejected with a
    response (axios does so for a status outside 2xx), [getAccessToken]
    throws "OAuth request failed with status <status>: <body>", the
    body being [JSON.stringify] of the response data.  The message
    holds the decimal status and that serialization, and it is made of
    the status and the data only: with any other client secret that
    meets the same rejection the message is the same.  The status and
    the numbers of the body are taken as JavaScript has them: a [VNum]
    is a safe integer, and any other number comes with the text
    JavaScript prints for it. *)
Theorem server_rejection_message (w : world) (url id secret sc : jsstring)
    (e : error) (r : http_response) (tr : list event) :
  axios_answer w url (token_request_params id secret sc) = Rejected e ->
  response e = Some r ->
  safe_integer (status r) = true ->
  numbers_as_printed (data r) = true ->
  let msg := js "OAuth request failed with status " ++ dec (status r) ++
             js ": " ++ interp (JSON_stringify (data r)) in
  getAccessToken w url id secret sc tr =
    (Throw (Error msg), tr ++ request_events url id secret sc) /\
  includes msg (dec (status r)) = true /\
  includes msg (interp (JSON_stringify (data r))) = true /\
  forall secret' : jsstring,
    axios_answer w url (token_request_params id secret' sc) = Rejected e ->
    fst (getAccessToken w url id secret' sc tr) = Throw (Error msg).
Proof.
  intros Ha Hr _ _ msg. subst msg.
  split; [exact (getAccessToken_rejected w url id secret sc e r tr Ha Hr)|].
  split; [apply includes_middle|].
  split.
  - do 3 apply includes_skip. apply includes_here, starts_with_refl.
  - intros secret' Ha'.
    rewrite (getAccessToken_rejected w url id secret' sc e r tr Ha' Hr).
    reflexivity.
Qed.

(** The 401 example of the specification. *)
Lemma server_rejection_message_witness :
  outcome (getAccessToken
             (runner maven_present (Ok (js "s3cr3t"))
                (rejected_with 401 invalid_client_body))
             oauthServerUrl clientId (js "s3cr3t") scope) =
    Throw (Error (jsq "OAuth request failed with status 401: {`error`:`invalid_client`}")) /\
  includes (jsq "OAuth request failed with status 401: {`error`:`invalid_client`}")
    (js "401") = true /\
  includes (jsq "OAuth request failed with status 401: {`error`:`invalid_client`}")
    (jsq "{`error`:`invalid_client`}") = true /\
  includes (jsq "OAuth request failed with status 401: {`error`:`invalid_client`}")
    (js "s3cr3t") = false.
Proof.
  destruct (server_rejection_message
              (runner maven_present (Ok (js "s3cr3t"))
                 (rejected_with 401 invalid_client_body))
              oauthServerUrl clientId (js "s3cr3t") scope
              {| message := js "Request failed with status code " ++ dec 401;
                 response := Some {| status := 401;
                                     data := invalid_client_body |};
                 request := true |}
              {| status := 401; data := invalid_client_body |}
              [] eq_refl eq_refl eq_refl eq_refl) as [H [H1 [H2 _]]].
  split.
  - unfold outcome. rewrite H. reflexivity.
  - split; [exact H1|]. split; [exact H2|]. reflexivity.
Defined.

(** C5 as stated fails twice.  A 201 response with a body is resolved,
    not rejected, and the failure message then holds neither the status
    nor the body.  And when the server's body quotes the secret, the
    failure message holds the secret. *)
Lemma server_rejection_claim_fails :
  (exists e,
     outcome (getAccessToken
                (runner maven_present (Ok (js "s3cr3t"))
                   (Resolved {| status := 201; data := invalid_client_body |}))
                oauthServerUrl clientId (js "s3cr3t") scope) = Throw e /\
     includes (message e) (js "201") = false /\
     includes (message e) (jsq "{`error`:`invalid_client`}") = false) /\
  (exists e,
     outcome (getAccessToken
                (runner maven_present (Ok (js "s3cr3t"))
                   (rejected_with 401
                      (VObj [(js "error", VStr (js "invalid_client"));
                             (js "error_description",
                              VStr (js "secret s3cr3t was not accepted"))])))
                oauthServerUrl clientId (js "s3cr3t") scope) = Throw e /\
     includes (message e) (js "s3cr3t") = true).
Proof.
  split; eexists; repeat split; reflexivity.
Qed.

(** ** createMavenSettings: what is written and what is returned *)

Lemma write_settings_written (w : world) (p doc : jsstring)
    (tr : list event) (pre : list event) :
  written pre = [] ->
  List.map snd
    (written (skipn (length tr) (snd (write_settings w p doc (tr ++ pre))))) =
  if reaches_write w p then [doc] else [].
Proof.
  intros Hpre.
  unfold write_settings, reaches_write, bind, call, ret.
  destruct (existsSync_answer w (path_dirname w p)); cbn [negb orb].
  - destruct (writeFileSync_answer w p doc);
      cbn [snd]; rewrite <- !app_assoc, skipn_past, !written_app, Hpre;
      reflexivity.
  - destruct (mkdirSync_answer w (path_dirname w p)) as [[]|e].
    + destruct (writeFileSync_answer w p doc);
        cbn [snd]; rewrite <- !app_assoc, skipn_past, !written_app, Hpre;
        reflexivity.
    + cbn [snd]. rewrite <- !app_assoc, skipn_past, !written_app, Hpre.
      reflexivity.
Qed.

Lemma write_settings_extends (w : world) (p doc : jsstring) (tr : list event) :
  exists evs, snd (write_settings w p doc tr) = tr ++ evs.
Proof.
  unfold write_settings, bind, call, ret.
  destruct (existsSync_answer w (path_dirname w p)); cbn [negb].
  - destruct (writeFileSync_answer w p doc); cbn [snd];
      rewrite <- !app_assoc; eexists; reflexivity.
  - destruct (mkdirSync_answer w (path_dirname w p)) as [[]|e].
    + destruct (writeFileSync_answer w p doc); cbn [snd];
        rewrite <- !app_assoc; eexists; reflexivity.
    + cbn [snd]. rewrite <- !app_assoc. eexists. reflexivity.
Qed.

Lemma rendered_after_write_settings {A} (w : world) (p doc : jsstring)
    (e0 : event) (k : M A) (tr : list event) :
  written [e0] = [] ->
  (forall t, written (skipn (length t) (snd (k t))) = []) ->
  (forall t, exists evs, snd (k t) = t ++ evs) ->
  rendered (emit e0 ;; write_settings w p doc ;; k) tr =
  if reaches_write w p then [doc] else [].
Proof.
  intros He Hk Hext.
  pose proof (write_settings_written w p doc tr [e0] He) as Hw.
  unfold rendered, events_of, bind, emit.
  destruct (write_settings w p doc (tr ++ [e0])) as [[[]|e] tr1] eqn:E.
  - cbn [snd] in Hw.
    destruct (write_settings_extends w p doc (tr ++ [e0])) as [evs Hevs].
    rewrite E in Hevs. cbn [snd] in Hevs. subst tr1.
    destruct (Hext ((tr ++ [e0]) ++ evs)) as [evs' Hevs'].
    pose proof (Hk ((tr ++ [e0]) ++ evs)) as Hq.
    rewrite Hevs' in *. rewrite skipn_past in Hq.
    rewrite <- !app_assoc. rewrite skipn_past.
    rewrite <- !app_assoc in Hw. rewrite skipn_past in Hw.
    rewrite !written_app. rewrite !written_app in Hw.
    rewrite Hq, app_nil_r. exact Hw.
  - cbn [snd] in *. exact Hw.
Qed.

Lemma rendered_createMavenSettings (w : world) (a s u : value)
    (p : jsstring) (tr : list event) :
  rendered (createMavenSettings w a s u p) tr =
  if reaches_write w p then [settingsXml a s u] else [].
Proof.
  unfold createMavenSettings.
  apply rendered_after_write_settings.
  - reflexivity.
  - intros t. unfold bind, emit, ret. cbn [snd].
    rewrite skipn_past. reflexivity.
  - intros t. eexists. reflexivity.
Qed.

Lemma rendered_mirror_only (w : world) (a s : value)
    (p : jsstring) (tr : list event) :
  rendered (MirrorOnly.createMavenSettings w a s p) tr =
  if reaches_write w p then [MirrorOnly.settingsXml a s] else [].
Proof.
  unfold MirrorOnly.createMavenSettings.
  apply rendered_after_write_settings.
  - reflexivity.
  - intros t. unfold bind, emit, ret. cbn [snd].
    rewrite skipn_past. reflexivity.
  - intros t. eexists. reflexivity.
Qed.

(** C10.  What [createMavenSettings] writes is a function of its
    token and server ids alone: whenever it gets as far as writing, the
    content is the template filled with those arguments, so two calls
    with equal arguments write the same content in any two worlds and
    after any two histories.  This holds for both generations of the
    renderer. *)
Theorem rendering_deterministic (w1 w2 : world) (tr1 tr2 : list event)
    (a s u : value) (p : jsstring) :
  (rendered (createMavenSettings w1 a s u p) tr1 =
     (if reaches_write w1 p then [settingsXml a s u] else []) /\
   Forall (fun c1 =>
             Forall (fun c2 => c1 = c2)
               (rendered (createMavenSettings w2 a s u p) tr2))
     (rendered (createMavenSettings w1 a s u p) tr1)) /\
  (rendered (MirrorOnly.createMavenSettings w1 a s p) tr1 =
     (if reaches_write w1 p then [MirrorOnly.settingsXml a s] else []) /\
   Forall (fun c1 =>
             Forall (fun c2 => c1 = c2)
               (rendered (MirrorOnly.createMavenSettings w2 a s p) tr2))
     (rendered (MirrorOnly.createMavenSettings w1 a s p) tr1)).
Proof.
  rewrite !rendered_createMavenSettings, !rendered_mirror_only.
  split; (split; [reflexivity|]);
    destruct (reaches_write w1 p), (reaches_write w2 p);
    repeat constructor.
Qed.

(** C8, as the code has it.  When [createMavenSettings] succeeds it
    returns the path it was given, unchanged: nothing resolves it. *)
Theorem createMavenSettings_returns_given_path (w : world) (a s u : value)
    (p r : jsstring) (tr tr' : list event) :
  createMavenSettings w a s u p tr = (Ok r, tr') -> r = p.
Proof.
  unfold createMavenSettings, write_settings, bind, call, emit, ret.
  destruct (existsSync_answer w (path_dirname w p)); cbn [negb].
  - destruct (writeFileSync_answer w p (settingsXml a s u));
      intros H; [now injection H | discriminate].
  - destruct (mkdirSync_answer w (path_dirname w p)) as [[]|e].
    + destruct (writeFileSync_answer w p (settingsXml a s u));
        intros H; [now injection H | discriminate].
    + discriminate.
Qed.

Lemma createMavenSettings_returns_given_path_witness :
  outcome (createMavenSettings sample_runner (VStr (js "T")) (VStr serverId)
             (VStr uploadServerId) (js "build/settings.xml")) =
    Ok (js "build/settings.xml") /\
  js "build/settings.xml" = js "build/settings.xml".
Proof.
  split; [reflexivity|].
  apply (createMavenSettings_returns_given_path sample_runner
           (VStr (js "T")) (VStr serverId) (VStr uploadServerId)
           (js "build/settings.xml") (js "build/settings.xml") []
           (snd (createMavenSettings sample_runner (VStr (js "T"))
                   (VStr serverId) (VStr uploadServerId)
                   (js "build/settings.xml") []))).
  reflexivity.
Defined.

(** C8 as stated fails.  Given the relative path [build/settings.xml]
    the renderer succeeds and returns [build/settings.xml], which is not
    an absolute path. *)
Lemma relative_path_returned_unresolved :
  outcome (createMavenSettings sample_runner (VStr (js "T")) (VStr serverId)
             (VStr uploadServerId) (js "build/settings.xml")) =
    Ok (js "build/settings.xml") /\
  isAbsolute (js "build/settings.xml") = false /\
  written (trace (createMavenSettings sample_runner (VStr (js "T"))
                    (VStr serverId) (VStr uploadServerId)
                    (js "build/settings.xml"))) =
    [(js "build/settings.xml",
      settingsXml (VStr (js "T")) (VStr serverId) (VStr uploadServerId))].
Proof. repeat split. Qed.

(** ** Reading rendered documents *)

Lemma scan_app (st : Xml.lexer) (a b : jsstring) :
  Xml.scan st (a ++ b) = Xml.scan (Xml.scan st a) b.
Proof. apply fold_left_app. Qed.

(** *** The two passes before the lexer *)

Lemma chars_ok_app_len (n : nat) :
  forall a b : jsstring,
    (length a <= n)%nat ->
    Xml.chars_ok a = true -> Xml.chars_ok b = true ->
    Xml.chars_ok (a ++ b) = true.
Proof.
  induction n as [|n IH]; intros a b Hl Ha Hb.
  - destruct a; [exact Hb | cbn in Hl; lia].
  - destruct a as [|c a]; [exact Hb|].
    cbn [app Xml.chars_ok] in *.
    destruct (is_high_surrogate c).
    + destruct a as [|d a]; [discriminate|].
      cbn [app]. apply andb_prop in Ha. destruct Ha as [Hd Ha].
      rewrite Hd. cbn [andb]. apply IH; [cbn in Hl; lia | exact Ha | exact Hb].
    + apply andb_prop in Ha. destruct Ha as [Hc Ha].
      rewrite Hc. cbn [andb]. apply IH; [cbn in Hl; lia | exact Ha | exact Hb].
Qed.

(** Texts made of whole characters join into one. *)
Lemma chars_ok_app (a b : jsstring) :
  Xml.chars_ok a = true -> Xml.chars_ok b = true ->
  Xml.chars_ok (a ++ b) = true.
Proof. apply (chars_ok_app_len (length a)). lia. Qed.

Lemma forallb_app_true {A} (f : A -> bool) (a b : list A) :
  forallb f a = true -> forallb f b = true -> forallb f (a ++ b) = true.
Proof. intros Ha Hb. rewrite forallb_app, Ha, Hb. reflexivity. Qed.

(** Without a carriage return there is nothing to normalize. *)
Lemma normalize_eol_clean (s : jsstring) :
  forallb (fun c => negb (c =? 13)) s = true -> Xml.normalize_eol s = s.
Proof.
  induction s as [|c s IH]; [reflexivity|].
  cbn [forallb Xml.normalize_eol]. intros H.
  apply andb_prop in H. destruct H as [Hc Hs].
  apply negb_true_iff in Hc. rewrite Hc, (IH Hs). reflexivity.
Qed.

Lemma parse_clean (doc : jsstring) :
  Xml.chars_ok doc = true ->
  forallb (fun c => negb (c =? 13)) doc = true ->
  Xml.parse doc = Xml.parse_state (Xml.scan Xml.lex_init doc).
Proof.
  intros Hc Hn. unfold Xml.parse.
  rewrite Hc, (normalize_eol_clean doc Hn). reflexivity.
Qed.

(** *** Character data that stands for itself *)

Lemma literal_chars (s : jsstring) :
  Xml.literal s = true -> Xml.chars_ok s = true.
Proof.
  unfold Xml.literal. intros H.
  apply andb_prop in H. destruct H as [H _].
  apply andb_prop in H. destruct H as [H _]. exact H.
Qed.

Lemma literal_units (s : jsstring) :
  Xml.literal s = true -> forallb Xml.literal_unit s = true.
Proof.
  unfold Xml.literal. intros H.
  apply andb_prop in H. destruct H as [H _].
  apply andb_prop in H. destruct H as [_ H]. exact H.
Qed.

Lemma literal_no_cdata_end (s : jsstring) :
  Xml.literal s = true -> includes s (js "]]>") = false.
Proof.
  unfold Xml.literal. intros H.
  apply andb_prop in H. destruct H as [_ H].
  now apply negb_true_iff in H.
Qed.

Lemma literal_no_cr (s : jsstring) :
  Xml.literal s = true -> forallb (fun c => negb (c =? 13)) s = true.
Proof.
  intros H. apply literal_units in H.
  induction s as [|c s IH]; [reflexivity|].
  cbn [forallb] in *. apply andb_prop in H. destruct H as [Hc Hs].
  unfold Xml.literal_unit in Hc.
  apply andb_prop in Hc. destruct Hc as [_ Hc].
  rewrite Hc, (IH Hs). reflexivity.
Qed.

Lemma starts_with_split (p l : jsstring) :
  starts_with p l = true -> exists q, l = p ++ q.
Proof.
  revert l. induction p as [|c p IH]; intros l H.
  - exists l. reflexivity.
  - destruct l as [|d l]; [discriminate|].
    cbn [starts_with] in H. apply andb_prop in H. destruct H as [Hc Hp].
    apply N.eqb_eq in Hc. subst d.
    destruct (IH l Hp) as [q ->]. exists q. reflexivity.
Qed.

(** A text without the first code unit of [p] does not bring [p] about
    in front of another text. *)
Lemma includes_after (a t p : jsstring) (c : N) (p' : jsstring) :
  p = c :: p' ->
  forallb (fun x => negb (x =? c)) a = true ->
  includes t p = false ->
  includes (a ++ t) p = false.
Proof.
  intros -> Ha Ht. induction a as [|x a IH]; [exact Ht|].
  cbn [forallb] in Ha. apply andb_prop in Ha. destruct Ha as [Hx Ha].
  apply negb_true_iff in Hx.
  cbn [app includes starts_with].
  rewrite N.eqb_sym, Hx, (IH Ha). reflexivity.
Qed.

Lemma no_gt_no_cdata_end (s : jsstring) :
  forallb (fun c => negb (c =? 62)) s = true -> includes s (js "]]>") = false.
Proof.
  intros H. destruct (includes s (js "]]>")) eqn:E; [|reflexivity].
  exfalso. induction s as [|c s IH]; [discriminate|].
  cbn [includes] in E. apply orb_prop in E. destruct E as [E|E].
  - destruct (starts_with_split _ _ E) as [q Hq].
    rewrite Hq in H. vm_compute in H. discriminate.
  - cbn [forallb] in H. apply andb_prop in H. destruct H as [_ Hs].
    exact (IH Hs E).
Qed.

(** Plain character data stands for itself. *)
Lemma plain_literal (s : jsstring) : Xml.plain s = true -> Xml.literal s = true.
Proof.
  intros H. unfold Xml.literal.
  assert (Hall : Xml.chars_ok s = true /\
                 forallb Xml.literal_unit s = true /\
                 forallb (fun c => negb (c =? 62)) s = true).
  { induction s as [|c s IH]; [repeat split|].
    cbn [Xml.plain forallb] in H. apply andb_prop in H.
    destruct H as [Hc Hs]. destruct (IH Hs) as [I1 [I2 I3]].
    unfold Xml.plain_char in Hc.
    apply andb_prop in Hc. destruct Hc as [Hc H62].
    apply andb_prop in Hc. destruct Hc as [Hc H38].
    apply andb_prop in Hc. destruct Hc as [Hc H60].
    assert (Hhi : is_high_surrogate c = false /\ Xml.is_bmp_char c = true /\
                  (c =? 13) = false).
    { unfold Xml.is_char in Hc. unfold is_high_surrogate, Xml.is_bmp_char.
      repeat rewrite ?orb_true_iff, ?andb_true_iff, ?N.eqb_eq,
        ?N.leb_le in Hc.
      repeat rewrite ?orb_true_iff, ?andb_true_iff, ?andb_false_iff,
        ?N.eqb_eq, ?N.eqb_neq, ?N.leb_le, ?N.leb_gt.
      lia. }
    destruct Hhi as [Hh [Hb H13]].
    cbn [Xml.chars_ok forallb]. rewrite Hh, Hb, I1, I2, I3, H62.
    unfold Xml.literal_unit. rewrite H38, H60, H13. repeat split. }
  destruct Hall as [H1 [H2 H3]].
  rewrite H1, H2, (no_gt_no_cdata_end s H3). reflexivity.
Qed.

(** *** The lexer on character data *)

Lemma ends_cdata_split (acc : jsstring) :
  Xml.ends_cdata acc = true -> exists q, acc = q ++ [93; 93].
Proof.
  unfold Xml.ends_cdata. intros H.
  destruct (starts_with_split _ _ H) as [q Hq].
  exists (rev q).
  rewrite <- (rev_involutive acc), Hq, rev_app_distr. reflexivity.
Qed.

Lemma text_step (c : N) (acc t : jsstring) (toks : list Xml.token) :
  Xml.literal_unit c = true ->
  includes (acc ++ c :: t) (js "]]>") = false ->
  Xml.lex_step {| Xml.lmode := Xml.InText; Xml.ltext := acc; Xml.lbuf := [];
                  Xml.ltoks := toks |} c =
  {| Xml.lmode := Xml.InText; Xml.ltext := acc ++ [c]; Xml.lbuf := [];
     Xml.ltoks := toks |}.
Proof.
  unfold Xml.literal_unit. intros H Hi.
  apply andb_prop in H. destruct H as [H _].
  apply andb_prop in H. destruct H as [H38 H60].
  apply negb_true_iff in H60, H38.
  unfold Xml.lex_step. cbn [Xml.lmode Xml.ltext Xml.ltoks].
  rewrite H60, H38.
  destruct ((c =? 62) && Xml.ends_cdata acc) eqn:E; [|reflexivity].
  exfalso. apply andb_prop in E. destruct E as [Hc He].
  apply N.eqb_eq in Hc. subst c.
  destruct (ends_cdata_split acc He) as [q ->].
  rewrite <- app_assoc in Hi.
  change ([93; 93] ++ 62 :: t) with (js "]]>" ++ t) in Hi.
  rewrite includes_middle in Hi. discriminate.
Qed.

Lemma scan_text_units (t : jsstring) :
  forall (acc : jsstring) (toks : list Xml.token),
    forallb Xml.literal_unit t = true ->
    includes (acc ++ t) (js "]]>") = false ->
    Xml.scan {| Xml.lmode := Xml.InText; Xml.ltext := acc; Xml.lbuf := [];
                Xml.ltoks := toks |} t =
    {| Xml.lmode := Xml.InText; Xml.ltext := acc ++ t; Xml.lbuf := [];
       Xml.ltoks := toks |}.
Proof.
  induction t as [|c t IH]; intros acc toks Hu Hi.
  - cbn. now rewrite app_nil_r.
  - cbn [forallb] in Hu. apply andb_prop in Hu. destruct Hu as [Hc Ht].
    unfold Xml.scan. cbn [fold_left].
    rewrite (text_step c acc t toks Hc Hi).
    fold (Xml.scan {| Xml.lmode := Xml.InText; Xml.ltext := acc ++ [c];
                      Xml.lbuf := []; Xml.ltoks := toks |} t).
    rewrite (IH (acc ++ [c]) toks Ht) by (rewrite <- app_assoc; exact Hi).
    now rewrite <- app_assoc.
Qed.

(** Character data that stands for itself leaves the lexer in its text
    mode and is added to the text as it is, after a text without [[]]. *)
Lemma scan_text (t acc : jsstring) (toks : list Xml.token) :
  Xml.literal t = true ->
  forallb (fun x => negb (x =? 93)) acc = true ->
  Xml.scan {| Xml.lmode := Xml.InText; Xml.ltext := acc; Xml.lbuf := [];
              Xml.ltoks := toks |} t =
  {| Xml.lmode := Xml.InText; Xml.ltext := acc ++ t; Xml.lbuf := [];
     Xml.ltoks := toks |}.
Proof.
  intros Ht Hacc.
  apply scan_text_units; [exact (literal_units t Ht)|].
  apply (includes_after acc t (js "]]>") 93 [93; 62] eq_refl Hacc).
  exact (literal_no_cdata_end t Ht).
Qed.

(** *** Reading a filled template *)

Ltac chars_piece :=
  first [ apply literal_chars; assumption | vm_compute; reflexivity ].

Ltac chars_pieces :=
  lazymatch goal with
  | |- Xml.chars_ok (_ ++ _) = true =>
      apply chars_ok_app; [chars_piece | chars_pieces]
  | |- _ => chars_piece
  end.

Ltac no_cr_piece :=
  first [ apply literal_no_cr; assumption | vm_compute; reflexivity ].

Ltac no_cr_pieces :=
  lazymatch goal with
  | |- forallb _ (_ ++ _) = true =>
      apply forallb_app_true; [no_cr_piece | no_cr_pieces]
  | |- _ => no_cr_piece
  end.

Ltac clean_document :=
  lazymatch goal with
  | |- Xml.chars_ok _ = true => chars_pieces
  | |- forallb _ _ = true => no_cr_pieces
  end.

(** Run the lexer over the next literal piece of a template. *)
Ltac scan_literal :=
  match goal with
  | |- context [Xml.scan (Xml.Build_lexer ?m ?x ?b ?k) (jsq ?p)] =>
      let t := constr:(Xml.scan (Xml.Build_lexer m x b k) (jsq p)) in
      let r := eval vm_compute in t in
      let H := fresh in
      assert (H : t = r) by (vm_compute; reflexivity);
      rewrite H; clear H
  end.

Ltac build_tree :=
  match goal with
  | |- context [Xml.parse_state ?st] =>
      let r := eval vm_compute in (Xml.parse_state st) in
      let H := fresh in
      assert (H : Xml.parse_state st = r) by (vm_compute; reflexivity);
      rewrite H; clear H
  end.

Ltac read_template :=
  rewrite parse_clean by clean_document;
  rewrite !app_assoc, !scan_app; unfold Xml.lex_init;
  repeat (scan_literal ||
          rewrite scan_text by first [assumption | vm_compute; reflexivity]);
  build_tree.

(** The document of [createMavenSettings], read back. *)
Lemma dual_document_tree (t s u : jsstring) :
  Xml.literal t = true -> Xml.literal s = true -> Xml.literal u = true ->
  exists root,
    Xml.parse (settingsXml (VStr t) (VStr s) (VStr u)) = Some root /\
    is_settings root = true /\
    List.map fst (attributes_of root) =
      [js "xmlns"; js "xmlns:xsi"; js "xsi:schemaLocation"] /\
    In (js "xmlns", js "http://maven.apache.org/SETTINGS/1.2.0")
       (attributes_of root) /\
    server_entries root =
      [ {| server_id := [s];
           server_headers := [([js "Authorization"], [js "Bearer " ++ t])] |};
        {| server_id := [u];
           server_headers := [([js "Authorization"], [js "Bearer " ++ t])] |} ] /\
    mirror_entries root =
      [ {| mirror_id := [s];
           mirror_url := [dev_repository_url];
           mirror_of := [js "*"];
           mirror_headers := [] |} ].
Proof.
  intros Ht Hs Hu.
  unfold settingsXml. cbn [ToString].
  read_template.
  eexists. split; [reflexivity|].
  cbn. rewrite ?app_nil_r. repeat split. now left.
Qed.

(** The document of the mirror-only renderer, read back. *)
Lemma mirror_document_tree (t s : jsstring) :
  Xml.literal t = true -> Xml.literal s = true ->
  exists root,
    Xml.parse (MirrorOnly.settingsXml (VStr t) (VStr s)) = Some root /\
    is_settings root = true /\
    List.map fst (attributes_of root) =
      [js "xmlns"; js "xmlns:xsi"; js "xsi:schemaLocation"] /\
    In (js "xmlns", js "http://maven.apache.org/SETTINGS/1.2.0")
       (attributes_of root) /\
    server_entries root = [] /\
    mirror_entries root =
      [ {| mirror_id := [s];
           mirror_url := [release_repository_url];
           mirror_of := [js "*"];
           mirror_headers := [([js "Authorization"], [js "Bearer " ++ t])] |} ].
Proof.
  intros Ht Hs.
  unfold MirrorOnly.settingsXml. cbn [ToString].
  read_template.
  eexists. split; [reflexivity|].
  cbn. rewrite ?app_nil_r. repeat split. now left.
Qed.

Lemma dual_document_reads (t s u : jsstring) :
  Xml.plain t = true -> Xml.plain s = true -> Xml.plain u = true ->
  exists root,
    Xml.parse (settingsXml (VStr t) (VStr s) (VStr u)) = Some root /\
    is_settings root = true /\
    server_entries root =
      [ {| server_id := [s];
           server_headers := [([js "Authorization"], [js "Bearer " ++ t])] |};
        {| server_id := [u];
           server_headers := [([js "Authorization"], [js "Bearer " ++ t])] |} ] /\
    mirror_entries root =
      [ {| mirror_id := [s];
           mirror_url := [dev_repository_url];
           mirror_of := [js "*"];
           mirror_headers := [] |} ].
Proof.
  intros Ht Hs Hu.
  destruct (dual_document_tree t s u (plain_literal t Ht) (plain_literal s Hs)
              (plain_literal u Hu)) as [root [Hp [Hr [_ [_ [Hse Hm]]]]]].
  exists root. repeat split; assumption.
Qed.

Lemma mirror_document_reads (t s : jsstring) :
  Xml.plain t = true -> Xml.plain s = true ->
  exists root,
    Xml.parse (MirrorOnly.settingsXml (VStr t) (VStr s)) = Some root /\
    is_settings root = true /\
    server_entries root = [] /\
    mirror_entries root =
      [ {| mirror_id := [s];
           mirror_url := [release_repository_url];
           mirror_of := [js "*"];
           mirror_headers := [([js "Authorization"], [js "Bearer " ++ t])] |} ].
Proof.
  intros Ht Hs.
  destruct (mirror_document_tree t s (plain_literal t Ht) (plain_literal s Hs))
    as [root [Hp [Hr [_ [_ [Hse Hm]]]]]].
  exists root. repeat split; assumption.
Qed.

(** A piece [t] set between a text ending in [x] and a text beginning
    with [y] shows as [x ++ t ++ y]. *)
Lemma includes_between (l1 t l2 x y : jsstring) :
  starts_with (rev x) (rev l1) = true ->
  starts_with y l2 = true ->
  includes (l1 ++ t ++ l2) (x ++ t ++ y) = true.
Proof.
  intros H1 H2.
  destruct (starts_with_split _ _ H1) as [q Hq].
  destruct (starts_with_split _ _ H2) as [q2 ->].
  assert (E : l1 = rev q ++ x).
  { rewrite <- (rev_involutive l1), Hq, rev_app_distr, rev_involutive.
    reflexivity. }
  rewrite E.
  replace ((rev q ++ x) ++ t ++ y ++ q2)
    with (rev q ++ (x ++ t ++ y) ++ q2)
    by (rewrite <- !app_assoc; reflexivity).
  apply includes_middle.
Qed.

Lemma includes_between_more (l1 t l2 b x y : jsstring) :
  starts_with (rev x) (rev l1) = true ->
  starts_with y l2 = true ->
  includes (l1 ++ t ++ l2 ++ b) (x ++ t ++ y) = true.
Proof.
  intros H1 H2.
  destruct (starts_with_split _ _ H2) as [q2 ->].
  rewrite <- app_assoc.
  apply (includes_between l1 t (y ++ q2 ++ b) x y H1).
  apply starts_with_app.
Qed.

Lemma starts_with_more (p a b : jsstring) :
  starts_with p a = true -> starts_with p (a ++ b) = true.
Proof.
  intros H. destruct (starts_with_split _ _ H) as [q ->].
  rewrite <- app_assoc. apply starts_with_app.
Qed.

(** What a text holds, it holds with more text after it. *)
Lemma includes_more (a b p : jsstring) :
  includes a p = true -> includes (a ++ b) p = true.
Proof.
  induction a as [|c a IH]; intros H.
  - cbn [includes] in H. rewrite orb_false_r in H.
    apply includes_here. exact (starts_with_more p [] b H).
  - cbn [includes] in H. apply orb_prop in H. destruct H as [H|H].
    + apply includes_here. exact (starts_with_more p (c :: a) b H).
    + cbn [app includes]. rewrite (IH H). apply orb_true_r.
Qed.

(** C1, as the code has it.  The renderer copies the token into the
    document as it is and escapes nothing: whatever the token holds,
    the one document a call writes is the template filled with it, and
    it has the text [<value>Bearer TOKEN</value>] with the token
    unchanged.  When the token and the server ids are character data
    that stands for itself (XML characters, none of them [&], [<] or a
    carriage return, and without [[]]>] among them), that document is
    well-formed and reading it back gives [Bearer TOKEN] as the value
    of every Authorization header.  Both generations of the renderer
    behave so. *)
Theorem token_inserted_as_is (w : world) (token sid uid p : jsstring)
    (tr : list event) :
  (rendered (createMavenSettings w (VStr token) (VStr sid) (VStr uid) p) tr =
     (if reaches_write w p
      then [settingsXml (VStr token) (VStr sid) (VStr uid)] else []) /\
   rendered (MirrorOnly.createMavenSettings w (VStr token) (VStr sid) p) tr =
     (if reaches_write w p
      then [MirrorOnly.settingsXml (VStr token) (VStr sid)] else [])) /\
  (includes (settingsXml (VStr token) (VStr sid) (VStr uid))
     (js "<value>Bearer " ++ token ++ js "</value>") = true /\
   includes (MirrorOnly.settingsXml (VStr token) (VStr sid))
     (js "<value>Bearer " ++ token ++ js "</value>") = true) /\
  (Xml.literal token = true -> Xml.literal sid = true ->
   Xml.literal uid = true ->
   (exists root,
      Xml.parse (settingsXml (VStr token) (VStr sid) (VStr uid)) = Some root /\
      List.map server_headers (server_entries root) =
        [ [([js "Authorization"], [js "Bearer " ++ token])];
          [([js "Authorization"], [js "Bearer " ++ token])] ]) /\
   (exists root,
      Xml.parse (MirrorOnly.settingsXml (VStr token) (VStr sid)) = Some root /\
      List.map mirror_headers (mirror_entries root) =
        [ [([js "Authorization"], [js "Bearer " ++ token])] ])).
Proof.
  split; [|split].
  - split; [apply rendered_createMavenSettings | apply rendered_mirror_only].
  - unfold settingsXml, MirrorOnly.settingsXml. cbn [ToString]. split.
    + do 2 apply includes_skip.
      apply includes_between_more; vm_compute; reflexivity.
    + do 2 apply includes_skip.
      apply includes_between; vm_compute; reflexivity.
  - intros Ht Hs Hu. split.
    + destruct (dual_document_tree token sid uid Ht Hs Hu)
        as [root [Hp [_ [_ [_ [Hse _]]]]]].
      exists root. split; [exact Hp|]. rewrite Hse. reflexivity.
    + destruct (mirror_document_tree token sid Ht Hs)
        as [root [Hp [_ [_ [_ [_ Hm]]]]]].
      exists root. split; [exact Hp|]. rewrite Hm. reflexivity.
Qed.

(** A token with [>] and a character beyond the Basic Multilingual
    Plane in it. *)
Lemma token_inserted_as_is_witness :
  Xml.literal (js "eyJhbGciOiJSUzI1NiJ9.c2ln-bmF0_dXJl>" ++ [55357; 56832]) = true /\
  exists root,
    Xml.parse (settingsXml
                 (VStr (js "eyJhbGciOiJSUzI1NiJ9.c2ln-bmF0_dXJl>" ++ [55357; 56832]))
                 (VStr serverId) (VStr uploadServerId)) = Some root /\
    List.map server_headers (server_entries root) =
      [ [([js "Authorization"],
          [js "Bearer " ++ js "eyJhbGciOiJSUzI1NiJ9.c2ln-bmF0_dXJl>" ++ [55357; 56832]])];
        [([js "Authorization"],
          [js "Bearer " ++ js "eyJhbGciOiJSUzI1NiJ9.c2ln-bmF0_dXJl>" ++ [55357; 56832]])] ].
Proof.
  split; [reflexivity|].
  destruct (token_inserted_as_is sample_runner
              (js "eyJhbGciOiJSUzI1NiJ9.c2ln-bmF0_dXJl>" ++ [55357; 56832])
              serverId uploadServerId (settingsPath sample_runner) [])
    as [_ [_ H]].
  destruct (H eq_refl eq_refl eq_refl) as [Hd _]. exact Hd.
Defined.

(** C1 as stated fails.  With [a<b] or [a&b] as the token the written
    document is not well-formed, in either generation; with [&lt;] as
    the token the document reads back as [Bearer <], not as the token.
    Nor does every other token come back: a carriage return comes back
    as a line feed, and [[]]>], a NUL or half a surrogate pair leave a
    document that is not well-formed. *)
Lemma markup_in_token_not_escaped :
  rendered (createMavenSettings sample_runner (VStr (js "a<b")) (VStr serverId)
              (VStr uploadServerId) (settingsPath sample_runner)) [] =
    [settingsXml (VStr (js "a<b")) (VStr serverId) (VStr uploadServerId)] /\
  Xml.parse (settingsXml (VStr (js "a<b")) (VStr serverId)
               (VStr uploadServerId)) = None /\
  Xml.parse (settingsXml (VStr (js "a&b")) (VStr serverId)
               (VStr uploadServerId)) = None /\
  Xml.parse (MirrorOnly.settingsXml (VStr (js "a<b")) (VStr serverId)) = None /\
  Xml.parse (MirrorOnly.settingsXml (VStr (js "a&b")) (VStr serverId)) = None /\
  (exists root,
     Xml.parse (settingsXml (VStr (js "&lt;")) (VStr serverId)
                  (VStr uploadServerId)) = Some root /\
     List.map server_headers (server_entries root) =
       [ [([js "Authorization"], [js "Bearer <"])];
         [([js "Authorization"], [js "Bearer <"])] ]) /\
  (exists root,
     Xml.parse (settingsXml (VStr [97; 13; 98]) (VStr serverId)
                  (VStr uploadServerId)) = Some root /\
     List.map server_headers (server_entries root) =
       [ [([js "Authorization"], [js "Bearer " ++ [97; 10; 98]])];
         [([js "Authorization"], [js "Bearer " ++ [97; 10; 98]])] ]) /\
  Xml.parse (settingsXml (VStr (js "]]>")) (VStr serverId)
               (VStr uploadServerId)) = None /\
  Xml.parse (settingsXml (VStr [0]) (VStr serverId)
               (VStr uploadServerId)) = None /\
  Xml.parse (settingsXml (VStr [55357]) (VStr serverId)
               (VStr uploadServerId)) = None.
Proof.
  split; [vm_compute; reflexivity|].
  split; [vm_compute; reflexivity|].
  split; [vm_compute; reflexivity|].
  split; [vm_compute; reflexivity|].
  split; [vm_compute; reflexivity|].
  split; [eexists; split; vm_compute; reflexivity|].
  split; [eexists; split; vm_compute; reflexivity|].
  split; [vm_compute; reflexivity|].
  split; vm_compute; reflexivity.
Qed.

(** C2, as the code has it.  Neither renderer selects a variant.
    Whatever it is called with, the renderer of four arguments writes
    the one template of [createMavenSettings], which has a servers
    section and an [<id>] for its [uploadServerId] as that prints, an
    absent one printing as [undefined]; and the renderer of three
    arguments writes the one mirror-only template.  When the arguments
    print as character data that stands for itself, the first document
    reads back as the dual-server variant, with the two server ids as
    printed, and the second as the single-mirror variant. *)
Theorem renderers_fix_the_variant (w : world)
    (accessToken serverId uploadServerId : value) (p : jsstring)
    (tr : list event) :
  (rendered (createMavenSettings w accessToken serverId uploadServerId p) tr =
     (if reaches_write w p
      then [settingsXml accessToken serverId uploadServerId] else []) /\
   rendered (MirrorOnly.createMavenSettings w accessToken serverId p) tr =
     (if reaches_write w p
      then [MirrorOnly.settingsXml accessToken serverId] else [])) /\
  (includes (settingsXml accessToken serverId uploadServerId)
     (js "<servers>") = true /\
   includes (settingsXml accessToken serverId uploadServerId)
     (js "<id>" ++ ToString uploadServerId ++ js "</id>") = true) /\
  (Xml.literal (ToString accessToken) = true ->
   Xml.literal (ToString serverId) = true ->
   Xml.literal (ToString uploadServerId) = true ->
   (exists root,
      Xml.parse (settingsXml accessToken serverId uploadServerId) = Some root /\
      variant_of root = Some DualServer /\
      List.map server_id (server_entries root) =
        [[ToString serverId]; [ToString uploadServerId]]) /\
   (exists root,
      Xml.parse (MirrorOnly.settingsXml accessToken serverId) = Some root /\
      variant_of root = Some SingleMirror)).
Proof.
  split; [|split].
  - split; [apply rendered_createMavenSettings | apply rendered_mirror_only].
  - unfold settingsXml. split.
    + apply includes_more. vm_compute. reflexivity.
    + do 4 apply includes_skip.
      apply includes_between_more; vm_compute; reflexivity.
  - intros Ht Hs Hu. split.
    + destruct (dual_document_tree _ _ _ Ht Hs Hu)
        as [root [Hp [_ [_ [_ [Hse Hm]]]]]].
      exists root. split; [exact Hp|].
      unfold variant_of. rewrite Hse, Hm. split; reflexivity.
    + destruct (mirror_document_tree _ _ Ht Hs)
        as [root [Hp [_ [_ [_ [Hse Hm]]]]]].
      exists root. split; [exact Hp|].
      unfold variant_of. rewrite Hse, Hm. reflexivity.
Qed.

Lemma renderers_fix_the_variant_witness :
  rendered (createMavenSettings sample_runner (VStr (js "abc123"))
              (VStr (js "curity-repo")) VUndef (settingsPath sample_runner)) [] =
    [settingsXml (VStr (js "abc123")) (VStr (js "curity-repo")) VUndef] /\
  exists root,
    Xml.parse (settingsXml (VStr (js "abc123")) (VStr (js "curity-repo"))
                 VUndef) = Some root /\
    variant_of root = Some DualServer /\
    List.map server_id (server_entries root) =
      [[js "curity-repo"]; [js "undefined"]].
Proof.
  destruct (renderers_fix_the_variant sample_runner (VStr (js "abc123"))
              (VStr (js "curity-repo")) VUndef (settingsPath sample_runner) [])
    as [[Hr _] [_ H]].
  split; [exact Hr|].
  destruct (H eq_refl eq_refl eq_refl) as [Hd _]. exact Hd.
Defined.

(** C2 as stated fails.  Called without an [uploadServerId], the
    renderer writes a document of the dual-server variant, its second
    server entry bearing the id [undefined]. *)
Lemma absent_upload_id_renders_dual :
  rendered (createMavenSettings sample_runner (VStr (js "abc123"))
              (VStr (js "curity-repo")) VUndef (settingsPath sample_runner)) [] =
    [settingsXml (VStr (js "abc123")) (VStr (js "curity-repo")) VUndef] /\
  exists root,
    Xml.parse (settingsXml (VStr (js "abc123")) (VStr (js "curity-repo"))
                 VUndef) = Some root /\
    variant_of root = Some DualServer /\
    variant_of root <> Some SingleMirror /\
    List.map server_id (server_entries root) =
      [[js "curity-repo"]; [js "undefined"]].
Proof.
  split; [vm_compute; reflexivity|].
  eexists. split; [vm_compute; reflexivity|].
  split; [vm_compute; reflexivity|].
  split; [vm_compute; discriminate|].
  vm_compute; reflexivity.
Qed.

(** C6.  With mirror id [curity-repo], upload id [curity-upload-repo]
    and token [T], every document the renderer writes is the template
    filled with these, and that document reads back as exactly two
    server entries, with those ids and each with the header value
    [Bearer T], and exactly one mirror entry, with id [curity-repo] and
    the dev-repository URL, which is not the release-repository URL. *)
Theorem dual_server_example (w : world) (p : jsstring) (tr : list event) :
  let doc := settingsXml (VStr (js "T")) (VStr (js "curity-repo"))
               (VStr (js "curity-upload-repo")) in
  Forall (fun d => d = doc)
    (rendered (createMavenSettings w (VStr (js "T")) (VStr (js "curity-repo"))
                 (VStr (js "curity-upload-repo")) p) tr) /\
  rendered (createMavenSettings sample_runner (VStr (js "T"))
              (VStr (js "curity-repo")) (VStr (js "curity-upload-repo"))
              (settingsPath sample_runner)) [] = [doc] /\
  exists root,
    Xml.parse doc = Some root /\
    server_entries root =
      [ {| server_id := [js "curity-repo"];
           server_headers := [([js "Authorization"], [js "Bearer T"])] |};
        {| server_id := [js "curity-upload-repo"];
           server_headers := [([js "Authorization"], [js "Bearer T"])] |} ] /\
    mirror_entries root =
      [ {| mirror_id := [js "curity-repo"];
           mirror_url := [dev_repository_url];
           mirror_of := [js "*"];
           mirror_headers := [] |} ] /\
    dev_repository_url <> release_repository_url /\
    dev_repository_url <> uploadServerUrl.
Proof.
  cbv zeta. split.
  - rewrite rendered_createMavenSettings.
    destruct (reaches_write w p); repeat constructor.
  - split; [vm_compute; reflexivity|].
    eexists. split; [vm_compute; reflexivity|].
    split; [vm_compute; reflexivity|].
    split; [vm_compute; reflexivity|].
    split; vm_compute; discriminate.
Qed.

(* ================================================================== *)
(** * Further properties of the action *)

Arguments settingsXml : simpl never.
Arguments MirrorOnly.settingsXml : simpl never.

(** ** More on traces *)

Lemma outputs_app (a b : list event) : outputs (a ++ b) = outputs a ++ outputs b.
Proof.
  induction a as [|e a IH]; [reflexivity|].
  destruct e; cbn [app outputs]; rewrite IH; reflexivity.
Qed.

Lemma secrets_app (a b : list event) : secrets (a ++ b) = secrets a ++ secrets b.
Proof.
  induction a as [|e a IH]; [reflexivity|].
  destruct e; cbn [app secrets]; rewrite IH; reflexivity.
Qed.

Lemma requests_app (a b : list event) :
  requests (a ++ b) = requests a ++ requests b.
Proof.
  induction a as [|e a IH]; [reflexivity|].
  destruct e; cbn [app requests]; rewrite IH; reflexivity.
Qed.

Lemma mkdirs_app (a b : list event) : mkdirs (a ++ b) = mkdirs a ++ mkdirs b.
Proof.
  induction a as [|e a IH]; [reflexivity|].
  destruct e; cbn [app mkdirs]; rewrite IH; reflexivity.
Qed.

Lemma infos_app (a b : list event) : infos (a ++ b) = infos a ++ infos b.
Proof.
  induction a as [|e a IH]; [reflexivity|].
  destruct e; cbn [app infos]; rewrite IH; reflexivity.
Qed.

Lemma network_calls_requests (tr : list event) :
  network_calls tr = length (requests tr).
Proof.
  induction tr as [|e tr IH]; [reflexivity|].
  destruct e; cbn [network_calls requests length]; rewrite ?IH; reflexivity.
Qed.

(** Where nothing is output and nothing masked, nothing is output
    before masking, and what follows is scanned from its start. *)
Lemma outputs_before_masking_app (a b : list event) :
  outputs a = [] -> secrets a = [] ->
  outputs_before_masking (a ++ b) = outputs_before_masking b.
Proof.
  induction a as [|e a IH]; intros Ho Hs; [reflexivity|].
  destruct e; cbn [app outputs secrets outputs_before_masking] in *;
    try discriminate; apply IH; assumption.
Qed.

Create Rewrite HintDb trace_db.
#[local] Hint Rewrite network_calls_app failures_app written_app outputs_app
  secrets_app requests_app mkdirs_app infos_app : trace_db.

(** The events of the probe are the [exec] call and at most one log
    line. *)
Lemma probe_events_silent (w : world) :
  outputs (probe_events w) = [] /\ secrets (probe_events w) = [] /\
  requests (probe_events w) = [] /\ written (probe_events w) = [] /\
  mkdirs (probe_events w) = [].
Proof.
  unfold probe_events.
  destruct (exec_mvn_version w) as [code chunks|chunks e].
  - destruct (code =? 0)%Z; repeat split.
  - repeat split.
Qed.

Ltac probe_facts w :=
  let Hn := fresh "Hpn" in let Hf := fresh "Hpf" in
  let Ho := fresh "Hpo" in let Hs := fresh "Hps" in
  let Hr := fresh "Hpr" in let Hw := fresh "Hpw" in
  let Hm := fresh "Hpm" in
  destruct (probe_events_quiet w) as [Hn Hf];
  destruct (probe_events_silent w) as [Ho [Hs [Hr [Hw Hm]]]].

(** ** The effects of the token exchange and of the renderer *)

(** The trace of [getAccessToken]: the request events, then the success
    line when it returns. *)
Lemma getAccessToken_trace (w : world) (url id secret sc : jsstring)
    (tr : list event) :
  snd (getAccessToken w url id secret sc tr) =
  tr ++ request_events url id secret sc ++
  match fst (getAccessToken w url id secret sc tr) with
  | Ok _ => [core_info (js "Successfully obtained access token")]
  | Throw _ => []
  end.
Proof.
  unfold getAccessToken, bind, try_catch, call, emit, ret, throw.
  destruct (axios_answer w url (token_request_params id secret sc)) as [r|e];
    cbn [fst snd].
  - destruct ((status r =? 200)%Z && truthy (data r)
              && truthy (get (data r) (js "access_token")));
      cbn [fst snd]; rewrite <- !app_assoc; reflexivity.
  - destruct (response e) as [r|]; [|destruct (request e)];
      cbn [fst snd]; rewrite <- !app_assoc; reflexivity.
Qed.

Lemma request_events_facts (url id secret sc : jsstring) :
  outputs (request_events url id secret sc) = [] /\
  secrets (request_events url id secret sc) = [] /\
  failures (request_events url id secret sc) = [] /\
  written (request_events url id secret sc) = [] /\
  requests (request_events url id secret sc) =
    [(url, token_request_params id secret sc, token_request_headers, 30000%Z)].
Proof. repeat split. Qed.

Ltac effects_case :=
  cbn [fst snd]; rewrite <- !app_assoc; eexists;
  do 6 (split; [reflexivity|]);
  let r := fresh "r" in let H := fresh "H" in
  intros r H;
  first [discriminate | injection H as <-; split; reflexivity].

(** What the renderer adds to the trace: log lines and file operations
    only, with at most one file written. *)
Lemma createMavenSettings_effects (w : world) (a s u : value) (p : jsstring)
    (tr : list event) :
  exists evs,
    snd (createMavenSettings w a s u p tr) = tr ++ evs /\
    outputs evs = [] /\ secrets evs = [] /\ failures evs = [] /\
    requests evs = [] /\
    written evs = (if reaches_write w p then [(p, settingsXml a s u)] else []) /\
    forall r, fst (createMavenSettings w a s u p tr) = Ok r ->
              r = p /\ reaches_write w p = true.
Proof.
  unfold createMavenSettings, write_settings, reaches_write, bind, call, emit,
    ret.
  destruct (existsSync_answer w (path_dirname w p)); cbn [negb orb].
  - destruct (writeFileSync_answer w p (settingsXml a s u)) as [[]|e];
      effects_case.
  - destruct (mkdirSync_answer w (path_dirname w p)) as [[]|e].
    + destruct (writeFileSync_answer w p (settingsXml a s u)) as [[]|e];
        effects_case.
    + effects_case.
Qed.

Lemma mirror_only_effects (w : world) (a s : value) (p : jsstring)
    (tr : list event) :
  exists evs,
    snd (MirrorOnly.createMavenSettings w a s p tr) = tr ++ evs /\
    outputs evs = [] /\ secrets evs = [] /\ failures evs = [] /\
    requests evs = [] /\
    written evs =
      (if reaches_write w p then [(p, MirrorOnly.settingsXml a s)] else []) /\
    forall r, fst (MirrorOnly.createMavenSettings w a s p tr) = Ok r ->
              r = p /\ reaches_write w p = true.
Proof.
  unfold MirrorOnly.createMavenSettings, write_settings, reaches_write, bind,
    call, emit, ret.
  destruct (existsSync_answer w (path_dirname w p)); cbn [negb orb].
  - destruct (writeFileSync_answer w p (MirrorOnly.settingsXml a s)) as [[]|e];
      effects_case.
  - destruct (mkdirSync_answer w (path_dirname w p)) as [[]|e].
    + destruct (writeFileSync_answer w p (MirrorOnly.settingsXml a s))
        as [[]|e];
        effects_case.
    + effects_case.
Qed.

(** ** The ways a run can go *)

Lemma nonblank_trim_start (s : jsstring) :
  nonblank s = true -> nonblank (trim_start s) = true.
Proof.
  unfold nonblank. induction s as [|c s IH]; [discriminate|].
  cbn [trim_start]. destruct (is_js_whitespace c) eqn:Hc.
  - cbn [existsb]. rewrite Hc. exact IH.
  - intros _. cbn [existsb]. now rewrite Hc.
Qed.

Lemma nonblank_rev (s : jsstring) : nonblank (rev s) = nonblank s.
Proof.
  unfold nonblank.
  destruct (existsb (fun c => negb (is_js_whitespace c)) s) eqn:E.
  - apply existsb_exists in E. destruct E as [c [Hin Hc]].
    apply existsb_exists. exists c. split; [now apply in_rev in Hin | exact Hc].
  - destruct (existsb (fun c => negb (is_js_whitespace c)) (rev s)) eqn:E';
      [|reflexivity].
    apply existsb_exists in E'. destruct E' as [c [Hin Hc]].
    apply in_rev in Hin.
    assert (H : existsb (fun c => negb (is_js_whitespace c)) s = true)
      by (apply existsb_exists; exists c; split; assumption).
    congruence.
Qed.

(** [trim] leaves something exactly of the strings that hold a code
    unit other than white space. *)
Lemma trim_truthy (s : jsstring) : str_truthy (trim s) = nonblank s.
Proof.
  destruct (nonblank s) eqn:E.
  - assert (H : nonblank (trim s) = true).
    { unfold trim. rewrite nonblank_rev. apply nonblank_trim_start.
      rewrite nonblank_rev. now apply nonblank_trim_start. }
    destruct (trim s); [discriminate | reflexivity].
  - assert (H : forallb is_js_whitespace s = true).
    { unfold nonblank in E. induction s as [|c s IH]; [reflexivity|].
      cbn [existsb] in E. apply orb_false_iff in E. destruct E as [Hc Hs].
      apply negb_false_iff in Hc. cbn [forallb]. rewrite Hc. exact (IH Hs). }
    now rewrite (blank_trim s H).
Qed.

(** [run] from the empty trace, case by case: Maven missing; a failure
    after the probe, before anything is output; or success, ending with
    the closing events. *)
Lemma run_cases (w : world) :
  fst (run w []) = Ok tt /\
  ((mvn_found w = false /\
    snd (run w []) = probe_events w ++ [core_setFailed maven_missing_message])
   \/
   (exists pre msg,
      mvn_found w = true /\
      snd (run w []) = pre ++ [core_setFailed (js "Action failed: " ++ msg)] /\
      outputs pre = [] /\ secrets pre = [] /\ failures pre = [] /\
      (requests pre = [] /\ written pre = [] /\
       (forall secret, input_client_secret w = Ok secret ->
                       nonblank secret = false)
       \/
       exists secret,
         input_client_secret w = Ok secret /\ nonblank secret = true /\
         requests pre =
           [(oauthServerUrl, token_request_params clientId secret scope,
             token_request_headers, 30000%Z)] /\
         (written pre = [] \/
          exists tok, truthy tok = true /\
                      written pre = [(settingsPath w, settingsXml tok (VStr serverId) (VStr uploadServerId))])))
   \/
   (exists pre tok secret,
      mvn_found w = true /\
      snd (run w []) = pre ++ closing_events w tok /\
      outputs pre = [] /\ secrets pre = [] /\ failures pre = [] /\
      input_client_secret w = Ok secret /\ nonblank secret = true /\
      requests pre =
        [(oauthServerUrl, token_request_params clientId secret scope,
          token_request_headers, 30000%Z)] /\
      written pre = [(settingsPath w, settingsXml tok (VStr serverId) (VStr uploadServerId))] /\
      truthy tok = true)).
Proof.
  probe_facts w.
  unfold run, try_catch, bind, call, emit, throw.
  rewrite checkMavenAvailable_eq. cbn [app negb].
  destruct (mvn_found w) eqn:Hm; cbn [negb fst snd].
  2:{ split; [reflexivity|]. left. split; reflexivity. }
  destruct (input_client_secret w) as [secret|e] eqn:Hi; cbn [fst snd].
  2:{ split; [reflexivity|]. right. left.
      exists (probe_events w ++ [core_getInput (js "client-secret") true]),
             (message e).
      split; [reflexivity|]. split; [reflexivity|].
      autorewrite with trace_db. rewrite Hpo, Hps, Hpf, Hpr, Hpw.
      cbn. repeat split. left. repeat split. discriminate. }
  rewrite trim_truthy.
  destruct (nonblank secret) eqn:Hb; cbn [negb fst snd].
  2:{ split; [reflexivity|]. right. left.
      exists (probe_events w ++ [core_getInput (js "client-secret") true]),
             (js "client-secret cannot be empty").
      split; [reflexivity|]. split; [reflexivity|].
      autorewrite with trace_db. rewrite Hpo, Hps, Hpf, Hpr, Hpw.
      cbn. repeat split. left. repeat split.
      intros secret' H. injection H as <-. exact Hb. }
  set (tr0 := probe_events w ++ [core_getInput (js "client-secret") true]).
  pose proof (getAccessToken_trace w oauthServerUrl clientId secret scope tr0)
    as Htr.
  pose proof (getAccessToken_outcomes w oauthServerUrl clientId secret scope tr0)
    as Hout.
  destruct (request_events_facts oauthServerUrl clientId secret scope)
    as [Hqo [Hqs [Hqf [Hqw Hqr]]]].
  destruct (getAccessToken w oauthServerUrl clientId secret scope tr0)
    as [[tok|e] tr1] eqn:Eg; cbn [fst snd] in *.
  2:{ split; [reflexivity|]. right. left.
      exists tr1, (message e). subst tr1 tr0.
      split; [reflexivity|]. split; [reflexivity|].
      autorewrite with trace_db.
      rewrite Hpo, Hps, Hpf, Hpr, Hpw, Hqo, Hqs, Hqf, Hqr, Hqw.
      cbn. repeat split. right. exists secret.
      split; [reflexivity|]. split; [exact Hb|]. split; [reflexivity|].
      left. reflexivity. }
  assert (Htok : truthy tok = true).
  { destruct Hout as [[v [Hv Ht]]|[e [k [He _]]]]; [|discriminate].
    injection Hv as <-. exact Ht. }
  destruct (createMavenSettings_effects w tok (VStr serverId) (VStr uploadServerId) (settingsPath w) tr1)
    as [evs [Hsnd [Heo [Hes [Hef [Her [Hew Hok]]]]]]].
  destruct (createMavenSettings w tok (VStr serverId) (VStr uploadServerId) (settingsPath w) tr1)
    as [[r|e] tr2] eqn:Ec; cbn [fst snd] in *.
  - destruct (Hok r eq_refl) as [-> Hreach]. rewrite Hreach in Hew.
    split; [reflexivity|]. right. right.
    exists tr2, tok, secret. subst tr2 tr1 tr0.
    split; [reflexivity|].
    split; [rewrite <- !app_assoc; reflexivity|].
    autorewrite with trace_db.
    rewrite Hpo, Hps, Hpf, Hpr, Hpw, Hqo, Hqs, Hqf, Hqr, Hqw,
      Heo, Hes, Hef, Her, Hew.
    cbn. repeat split; assumption.
  - split; [reflexivity|]. right. left.
    exists tr2, (message e). subst tr2 tr1 tr0.
    split; [reflexivity|]. split; [reflexivity|].
    autorewrite with trace_db.
    rewrite Hpo, Hps, Hpf, Hpr, Hpw, Hqo, Hqs, Hqf, Hqr, Hqw,
      Heo, Hes, Hef, Her, Hew.
    cbn. repeat split. right. exists secret.
    split; [reflexivity|]. split; [exact Hb|]. split; [reflexivity|].
    destruct (reaches_write w (settingsPath w)); [right | left; reflexivity].
    exists tok. split; [exact Htok | reflexivity].
Qed.

(** [MirrorOnly.run] from the empty trace, case by case: Maven missing; a failure
    after the probe, before anything is output; or success, ending with
    the closing events. *)
Lemma mirror_only_run_cases (w : world) :
  fst (MirrorOnly.run w []) = Ok tt /\
  ((mvn_found w = false /\
    snd (MirrorOnly.run w []) = probe_events w ++ [core_setFailed maven_missing_message])
   \/
   (exists pre msg,
      mvn_found w = true /\
      snd (MirrorOnly.run w []) = pre ++ [core_setFailed (js "Action failed: " ++ msg)] /\
      outputs pre = [] /\ secrets pre = [] /\ failures pre = [] /\
      (requests pre = [] /\ written pre = [] /\
       (forall secret, input_client_secret w = Ok secret ->
                       nonblank secret = false)
       \/
       exists secret,
         input_client_secret w = Ok secret /\ nonblank secret = true /\
         requests pre =
           [(oauthServerUrl, token_request_params clientId secret scope,
             token_request_headers, 30000%Z)] /\
         (written pre = [] \/
          exists tok, truthy tok = true /\
                      written pre = [(settingsPath w, MirrorOnly.settingsXml tok (VStr serverId))])))
   \/
   (exists pre tok secret,
      mvn_found w = true /\
      snd (MirrorOnly.run w []) = pre ++ mirror_only_closing_events w tok /\
      outputs pre = [] /\ secrets pre = [] /\ failures pre = [] /\
      input_client_secret w = Ok secret /\ nonblank secret = true /\
      requests pre =
        [(oauthServerUrl, token_request_params clientId secret scope,
          token_request_headers, 30000%Z)] /\
      written pre = [(settingsPath w, MirrorOnly.settingsXml tok (VStr serverId))] /\
      truthy tok = true)).
Proof.
  probe_facts w.
  unfold MirrorOnly.run, try_catch, bind, call, emit, throw.
  rewrite checkMavenAvailable_eq. cbn [app negb].
  destruct (mvn_found w) eqn:Hm; cbn [negb fst snd].
  2:{ split; [reflexivity|]. left. split; reflexivity. }
  destruct (input_client_secret w) as [secret|e] eqn:Hi; cbn [fst snd].
  2:{ split; [reflexivity|]. right. left.
      exists (probe_events w ++ [core_getInput (js "client-secret") true]),
             (message e).
      split; [reflexivity|]. split; [reflexivity|].
      autorewrite with trace_db. rewrite Hpo, Hps, Hpf, Hpr, Hpw.
      cbn. repeat split. left. repeat split. discriminate. }
  rewrite trim_truthy.
  destruct (nonblank secret) eqn:Hb; cbn [negb fst snd].
  2:{ split; [reflexivity|]. right. left.
      exists (probe_events w ++ [core_getInput (js "client-secret") true]),
             (js "client-secret cannot be empty").
      split; [reflexivity|]. split; [reflexivity|].
      autorewrite with trace_db. rewrite Hpo, Hps, Hpf, Hpr, Hpw.
      cbn. repeat split. left. repeat split.
      intros secret' H. injection H as <-. exact Hb. }
  set (tr0 := probe_events w ++ [core_getInput (js "client-secret") true]).
  pose proof (getAccessToken_trace w oauthServerUrl clientId secret scope tr0)
    as Htr.
  pose proof (getAccessToken_outcomes w oauthServerUrl clientId secret scope tr0)
    as Hout.
  destruct (request_events_facts oauthServerUrl clientId secret scope)
    as [Hqo [Hqs [Hqf [Hqw Hqr]]]].
  destruct (getAccessToken w oauthServerUrl clientId secret scope tr0)
    as [[tok|e] tr1] eqn:Eg; cbn [fst snd] in *.
  2:{ split; [reflexivity|]. right. left.
      exists tr1, (message e). subst tr1 tr0.
      split; [reflexivity|]. split; [reflexivity|].
      autorewrite with trace_db.
      rewrite Hpo, Hps, Hpf, Hpr, Hpw, Hqo, Hqs, Hqf, Hqr, Hqw.
      cbn. repeat split. right. exists secret.
      split; [reflexivity|]. split; [exact Hb|]. split; [reflexivity|].
      left. reflexivity. }
  assert (Htok : truthy tok = true).
  { destruct Hout as [[v [Hv Ht]]|[e [k [He _]]]]; [|discriminate].
    injection Hv as <-. exact Ht. }
  destruct (mirror_only_effects w tok (VStr serverId) (settingsPath w) tr1)
    as [evs [Hsnd [Heo [Hes [Hef [Her [Hew Hok]]]]]]].
  destruct (MirrorOnly.createMavenSettings w tok (VStr serverId) (settingsPath w) tr1)
    as [[r|e] tr2] eqn:Ec; cbn [fst snd] in *.
  - destruct (Hok r eq_refl) as [-> Hreach]. rewrite Hreach in Hew.
    split; [reflexivity|]. right. right.
    exists tr2, tok, secret. subst tr2 tr1 tr0.
    split; [reflexivity|].
    split; [rewrite <- !app_assoc; reflexivity|].
    autorewrite with trace_db.
    rewrite Hpo, Hps, Hpf, Hpr, Hpw, Hqo, Hqs, Hqf, Hqr, Hqw,
      Heo, Hes, Hef, Her, Hew.
    cbn. repeat split; assumption.
  - split; [reflexivity|]. right. left.
    exists tr2, (message e). subst tr2 tr1 tr0.
    split; [reflexivity|]. split; [reflexivity|].
    autorewrite with trace_db.
    rewrite Hpo, Hps, Hpf, Hpr, Hpw, Hqo, Hqs, Hqf, Hqr, Hqw,
      Heo, Hes, Hef, Her, Hew.
    cbn. repeat split. right. exists secret.
    split; [reflexivity|]. split; [exact Hb|]. split; [reflexivity|].
    destruct (reaches_write w (settingsPath w)); [right | left; reflexivity].
    exists tok. split; [exact Htok | reflexivity].
Qed.

(** ** The token exchange *)

(** X1.  Whatever the endpoint answers, one call of [getAccessToken]
    makes exactly one POST (it never retries): to the given endpoint,
    with the form-encoding and JSON headers and the 30 second timeout,
    and with a form of [grant_type], [client_id] and [client_secret]
    (the secret as it was given), followed by [scope] only when the
    scope is not empty. *)
Theorem getAccessToken_single_request (w : world)
    (url id secret sc : jsstring) (tr : list event) :
  requests (events_of (getAccessToken w url id secret sc) tr) =
    [(url, token_request_params id secret sc, token_request_headers,
      30000%Z)] /\
  token_request_params id secret sc =
    [(js "grant_type", js "client_credentials"); (js "client_id", id);
     (js "client_secret", secret)] ++
    match sc with
    | [] => []
    | _ :: _ => [(js "scope", sc)]
    end.
Proof.
  split.
  - unfold events_of. rewrite getAccessToken_trace, skipn_past.
    destruct (fst (getAccessToken w url id secret sc tr)); reflexivity.
  - unfold token_request_params. destruct sc; reflexivity.
Qed.

(** X2.  [getAccessToken] returns a token in one case only: the
    request resolved with status 200 and a truthy [access_token] in its
    body, and then it returns that value as it came.  It never returns
    an empty or missing token. *)
Theorem getAccessToken_succeeds_iff (w : world) (url id secret sc : jsstring)
    (tr : list event) (v : value) :
  fst (getAccessToken w url id secret sc tr) = Ok v <->
  exists r,
    axios_answer w url (token_request_params id secret sc) = Resolved r /\
    status r = 200%Z /\
    truthy (get (data r) (js "access_token")) = true /\
    v = get (data r) (js "access_token").
Proof.
  split.
  - unfold getAccessToken, bind, try_catch, call, emit, ret, throw.
    destruct (axios_answer w url (token_request_params id secret sc))
      as [r|e]; cbn [fst snd].
    + destruct (status r =? 200)%Z eqn:Es; cbn [andb];
        [|discriminate].
      destruct (truthy (data r)); cbn [andb]; [|discriminate].
      destruct (truthy (get (data r) (js "access_token"))) eqn:Et;
        cbn [fst]; [|discriminate].
      intros H. injection H as <-. exists r.
      apply Z.eqb_eq in Es. repeat split; assumption.
    + destruct (response e); [|destruct (request e)]; discriminate.
  - intros [r [Ha [Hs [Ht ->]]]].
    rewrite (getAccessToken_success w url id secret sc r tr Ha Hs Ht).
    reflexivity.
Qed.

(** X3.  A request rejected without a response is reported by its own
    message: as "No response received from OAuth server: ..." when the
    request had been made (the Unreachable kind), and as "OAuth request
    error: ..." when it had not (the RequestError kind). *)
Theorem unanswered_request_message (w : world) (url id secret sc : jsstring)
    (e : error) (tr : list event) :
  axios_answer w url (token_request_params id secret sc) = Rejected e ->
  response e = None ->
  exists msg,
    getAccessToken w url id secret sc tr =
      (Throw (Error msg), tr ++ request_events url id secret sc) /\
    msg = (if request e
           then js "No response received from OAuth server: "
           else js "OAuth request error: ") ++ message e /\
    kind_of_message msg =
      Some (if request e then Unreachable else RequestError).
Proof.
  intros Ha Hr.
  unfold getAccessToken, bind, try_catch, call, emit, throw.
  rewrite Ha. cbn [fst snd]. rewrite Hr.
  destruct (request e); eexists; rewrite <- !app_assoc;
    (split; [reflexivity|]); (split; [reflexivity|]).
  - apply kind_of_no_response.
  - apply kind_of_request_error.
Qed.

Lemma unanswered_request_message_witness :
  exists msg,
    getAccessToken
      (runner maven_present (Ok (js "s3cr3t"))
         (Rejected {| message := js "timeout of 30000ms exceeded";
                      response := None; request := true |}))
      oauthServerUrl clientId (js "s3cr3t") scope [] =
      (Throw (Error msg),
       [] ++ request_events oauthServerUrl clientId (js "s3cr3t") scope) /\
    msg = js "No response received from OAuth server: " ++
          js "timeout of 30000ms exceeded" /\
    kind_of_message msg = Some Unreachable.
Proof.
  apply (unanswered_request_message
           (runner maven_present (Ok (js "s3cr3t"))
              (Rejected {| message := js "timeout of 30000ms exceeded";
                           response := None; request := true |}))
           oauthServerUrl clientId (js "s3cr3t") scope
           {| message := js "timeout of 30000ms exceeded";
              response := None; request := true |} []);
    reflexivity.
Defined.

(** ** The whole run *)

Lemma closing_events_facts (w : world) (tok : value) :
  failures (closing_events w tok) = [] /\
  requests (closing_events w tok) = [] /\
  written (closing_events w tok) = [] /\
  secrets (closing_events w tok) = [tok] /\
  outputs (closing_events w tok) =
    [(js "settings-file", VStr (settingsPath w)); (js "access-token", tok);
     (js "maven-deploy-args", VStr mavenDeployArgs)].
Proof. repeat split. Qed.

Lemma mirror_only_closing_events_facts (w : world) (tok : value) :
  failures (mirror_only_closing_events w tok) = [] /\
  requests (mirror_only_closing_events w tok) = [] /\
  written (mirror_only_closing_events w tok) = [] /\
  secrets (mirror_only_closing_events w tok) = [tok] /\
  outputs (mirror_only_closing_events w tok) =
    [(js "settings-file", VStr (settingsPath w)); (js "access-token", tok)].
Proof. repeat split. Qed.

Ltac use_cases H :=
  destruct H as [Hok [[Hm Htr]
    | [[pre [msg [Hm [Htr [Ho [Hs [Hf Hrw]]]]]]]
      | [pre [tok [secret [Hm [Htr [Ho [Hs [Hf [Hi [Hb [Hr [Hw Ht]]]]]]]]]]]]]]].

(** X4.  [run] never throws.  It ends in exactly one of two ways:
    without a failure and with its outputs set ([settings-file],
    [access-token] and [maven-deploy-args]; the mirror-only generation
    sets the first two), or with exactly one [setFailed] and no output
    set and nothing registered as a secret.  The failure message is the
    Maven one or begins with "Action failed: ". *)
Theorem run_ends_in_one_outcome (w : world) :
  (outcome (run w) = Ok tt /\
   ((failures (trace (run w)) = [] /\
     List.map fst (outputs (trace (run w))) =
       [js "settings-file"; js "access-token"; js "maven-deploy-args"])
    \/
    (exists msg,
       failures (trace (run w)) = [msg] /\
       outputs (trace (run w)) = [] /\ secrets (trace (run w)) = [] /\
       (msg = maven_missing_message \/
        starts_with (js "Action failed: ") msg = true)))) /\
  (outcome (MirrorOnly.run w) = Ok tt /\
   ((failures (trace (MirrorOnly.run w)) = [] /\
     List.map fst (outputs (trace (MirrorOnly.run w))) =
       [js "settings-file"; js "access-token"])
    \/
    (exists msg,
       failures (trace (MirrorOnly.run w)) = [msg] /\
       outputs (trace (MirrorOnly.run w)) = [] /\
       secrets (trace (MirrorOnly.run w)) = [] /\
       (msg = maven_missing_message \/
        starts_with (js "Action failed: ") msg = true)))).
Proof.
  probe_facts w. unfold outcome, trace. split.
  - pose proof (run_cases w) as H. use_cases H;
      (split; [exact Hok|]); rewrite Htr; autorewrite with trace_db.
    + right. exists maven_missing_message.
      rewrite Hpf, Hpo, Hps. repeat split. now left.
    + right. exists (js "Action failed: " ++ msg).
      rewrite Hf, Ho, Hs. repeat split. right. apply starts_with_app.
    + left. rewrite Hf, Ho. split; reflexivity.
  - pose proof (mirror_only_run_cases w) as H. use_cases H;
      (split; [exact Hok|]); rewrite Htr; autorewrite with trace_db.
    + right. exists maven_missing_message.
      rewrite Hpf, Hpo, Hps. repeat split. now left.
    + right. exists (js "Action failed: " ++ msg).
      rewrite Hf, Ho, Hs. repeat split. right. apply starts_with_app.
    + left. rewrite Hf, Ho. split; reflexivity.
Qed.

(** X5.  The token is masked before it is output: in every run no
    [access-token] output is set before a [setSecret], and the values
    set as [access-token] are exactly the values registered as secrets
    (none, or the one token). *)
Theorem run_masks_token_before_output (w : world) :
  (outputs_before_masking (trace (run w)) = [] /\
   token_outputs (trace (run w)) = secrets (trace (run w))) /\
  (outputs_before_masking (trace (MirrorOnly.run w)) = [] /\
   token_outputs (trace (MirrorOnly.run w)) =
     secrets (trace (MirrorOnly.run w))).
Proof.
  probe_facts w. unfold trace, token_outputs. split.
  - pose proof (run_cases w) as H. use_cases H; rewrite Htr.
    + rewrite (outputs_before_masking_app _ _ Hpo Hps).
      autorewrite with trace_db. rewrite Hpo, Hps. split; reflexivity.
    + rewrite (outputs_before_masking_app _ _ Ho Hs).
      autorewrite with trace_db. rewrite Ho, Hs. split; reflexivity.
    + rewrite (outputs_before_masking_app _ _ Ho Hs).
      autorewrite with trace_db. rewrite Ho, Hs. split; reflexivity.
  - pose proof (mirror_only_run_cases w) as H. use_cases H; rewrite Htr.
    + rewrite (outputs_before_masking_app _ _ Hpo Hps).
      autorewrite with trace_db. rewrite Hpo, Hps. split; reflexivity.
    + rewrite (outputs_before_masking_app _ _ Ho Hs).
      autorewrite with trace_db. rewrite Ho, Hs. split; reflexivity.
    + rewrite (outputs_before_masking_app _ _ Ho Hs).
      autorewrite with trace_db. rewrite Ho, Hs. split; reflexivity.
Qed.

(** X6.  A run makes at most one token request and writes at most one
    file, and it writes only after its one token request and only a
    document made for a truthy token, at the path [path.join] gives for
    the home directory, [.m2] and [settings.xml]. *)
Theorem run_writes_only_with_token (w : world) :
  (network_calls (trace (run w)) <= 1)%nat /\
  (written (trace (run w)) = [] \/
   exists tok,
     truthy tok = true /\ network_calls (trace (run w)) = 1%nat /\
     written (trace (run w)) =
       [(path_join w [os_homedir w; js ".m2"; js "settings.xml"],
         settingsXml tok (VStr (js "curity-repo"))
           (VStr (js "curity-upload-repo")))]).
Proof.
  probe_facts w. unfold trace.
  pose proof (run_cases w) as H. use_cases H; rewrite Htr;
    rewrite !network_calls_requests; autorewrite with trace_db.
  - rewrite Hpr, Hpw. cbn. split; [lia | now left].
  - destruct Hrw as [[Hr [Hw _]]|[secret [_ [_ [Hr Hw]]]]]; rewrite Hr.
    + rewrite Hw. cbn. split; [lia | now left].
    + cbn. split; [lia|].
      destruct Hw as [Hw|[tok [Ht Hw]]]; rewrite Hw; [now left|].
      right. exists tok. repeat split. exact Ht.
  - rewrite Hr, Hw. cbn. split; [lia|]. right. exists tok.
    repeat split. exact Ht.
Qed.

(** X7.  Every token request of a run goes to the fixed endpoint with
    the fixed client id, carries the secret exactly as [core.getInput]
    returned it (not trimmed), and carries no scope; and a request is
    made only for a secret that is not blank. *)
Theorem run_request_form (w : world) :
  Forall (fun q =>
            exists secret,
              input_client_secret w = Ok secret /\ nonblank secret = true /\
              q = (js "https://login.curity.io/internal/oauth-token",
                   [(js "grant_type", js "client_credentials");
                    (js "client_id", js "curity-cli-github");
                    (js "client_secret", secret)],
                   token_request_headers, 30000%Z))
    (requests (trace (run w))).
Proof.
  probe_facts w. unfold trace.
  pose proof (run_cases w) as H. use_cases H; rewrite Htr;
    autorewrite with trace_db.
  - rewrite Hpr. constructor.
  - destruct Hrw as [[Hr _]|[secret [Hi [Hb [Hr _]]]]]; rewrite Hr.
    + constructor.
    + repeat constructor. exists secret. repeat split; assumption.
  - rewrite Hr. repeat constructor. exists secret. repeat split; assumption.
Qed.

(** X8.  Once the probe has passed and [core.getInput] has returned the
    secret, the run makes its one token request exactly when the secret
    holds a code unit that is not white space. *)
Theorem run_requests_iff_nonblank (w : world) (s : jsstring) :
  outcome (checkMavenAvailable w) = Ok true ->
  input_client_secret w = Ok s ->
  network_calls (trace (run w)) = (if nonblank s then 1 else 0)%nat.
Proof.
  unfold outcome. rewrite checkMavenAvailable_eq. cbn [fst].
  intros Hprobe Hin. injection Hprobe as Hprobe.
  probe_facts w. unfold trace.
  pose proof (run_cases w) as H. use_cases H; [congruence| |].
  - rewrite Htr, network_calls_requests. autorewrite with trace_db.
    destruct Hrw as [[Hr [_ Hnb]]|[secret [Hi [Hb [Hr _]]]]]; rewrite Hr.
    + rewrite (Hnb s Hin). reflexivity.
    + assert (secret = s) by congruence. subst secret.
      rewrite Hb. reflexivity.
  - rewrite Htr, network_calls_requests. autorewrite with trace_db.
    assert (secret = s) by congruence. subst secret.
    rewrite Hr, Hb. reflexivity.
Qed.

Lemma run_requests_iff_nonblank_witness :
  nonblank (js " s3cr3t ") = true /\
  network_calls
    (trace (run (runner maven_present (Ok (js " s3cr3t "))
                   (token_granted (js "T"))))) = 1%nat.
Proof.
  split; [reflexivity|].
  apply (run_requests_iff_nonblank
           (runner maven_present (Ok (js " s3cr3t ")) (token_granted (js "T")))
           (js " s3cr3t ")); reflexivity.
Defined.

Lemma createMavenSettings_succeeds (w : world) (a s u : value) (p : jsstring)
    (tr : list event) :
  reaches_write w p = true ->
  writeFileSync_answer w p (settingsXml a s u) = Ok tt ->
  fst (createMavenSettings w a s u p tr) = Ok p.
Proof.
  unfold createMavenSettings, write_settings, reaches_write, bind, call, emit,
    ret.
  intros Hr Hw.
  destruct (existsSync_answer w (path_dirname w p)); cbn [negb orb] in *.
  - rewrite Hw. reflexivity.
  - destruct (mkdirSync_answer w (path_dirname w p)) as [[]|e];
      [|discriminate].
    rewrite Hw. reflexivity.
Qed.

(** The trace of a run in which every step succeeds. *)
Lemma run_success_trace (w : world) (secret : jsstring) (r : http_response) :
  mvn_found w = true ->
  input_client_secret w = Ok secret ->
  nonblank secret = true ->
  axios_answer w oauthServerUrl (token_request_params clientId secret scope) =
    Resolved r ->
  status r = 200%Z ->
  truthy (get (data r) (js "access_token")) = true ->
  reaches_write w (settingsPath w) = true ->
  writeFileSync_answer w (settingsPath w)
    (settingsXml (get (data r) (js "access_token")) (VStr serverId)
       (VStr uploadServerId)) = Ok tt ->
  exists pre,
    snd (run w []) =
      pre ++ closing_events w (get (data r) (js "access_token")) /\
    outputs pre = [] /\ secrets pre = [] /\ failures pre = [] /\
    written pre =
      [(settingsPath w,
        settingsXml (get (data r) (js "access_token")) (VStr serverId)
          (VStr uploadServerId))].
Proof.
  intros Hm Hi Hb Ha Hs Ht Hr Hw.
  probe_facts w.
  unfold run, try_catch, bind, call, emit, throw.
  rewrite checkMavenAvailable_eq, Hm, Hi. cbn [negb fst snd app].
  rewrite trim_truthy, Hb. cbn [negb].
  rewrite (getAccessToken_success w oauthServerUrl clientId secret scope r
             _ Ha Hs Ht).
  set (tok := get (data r) (js "access_token")) in *.
  match goal with
  | |- context [createMavenSettings w tok ?x ?y ?p ?t] =>
      destruct (createMavenSettings_effects w tok x y p t)
        as [evs [Hsnd [Heo [Hes [Hef [Her [Hew _]]]]]]];
      pose proof (createMavenSettings_succeeds w tok x y p t Hr Hw) as Hfst;
      destruct (createMavenSettings w tok x y p t) as [res tr2]
  end.
  cbn [fst snd] in *. subst res tr2. cbn [fst snd].
  rewrite Hr in Hew.
  exists (probe_events w ++ [core_getInput (js "client-secret") true] ++
          request_events oauthServerUrl clientId secret scope ++
          [core_info (js "Successfully obtained access token")] ++ evs).
  split; [rewrite <- !app_assoc; reflexivity|].
  autorewrite with trace_db.
  rewrite Hpo, Hps, Hpf, Hpw, Heo, Hes, Hef, Hew.
  repeat split.
Qed.

(** X9.  When the probe passes, the secret is not blank, the endpoint
    answers 200 with a truthy [access_token], and the directory and
    file steps succeed, the run reports no failure, writes the settings
    made for that token at the settings path, registers the token as a
    secret, and sets [settings-file] to the settings path,
    [access-token] to the token and [maven-deploy-args] to the deploy
    arguments for the upload server. *)
Theorem run_success (w : world) (secret : jsstring) (r : http_response) :
  outcome (checkMavenAvailable w) = Ok true ->
  input_client_secret w = Ok secret ->
  nonblank secret = true ->
  axios_answer w oauthServerUrl (token_request_params clientId secret scope) =
    Resolved r ->
  status r = 200%Z ->
  truthy (get (data r) (js "access_token")) = true ->
  reaches_write w (settingsPath w) = true ->
  writeFileSync_answer w (settingsPath w)
    (settingsXml (get (data r) (js "access_token")) (VStr serverId)
       (VStr uploadServerId)) = Ok tt ->
  failures (trace (run w)) = [] /\
  written (trace (run w)) =
    [(settingsPath w,
      settingsXml (get (data r) (js "access_token")) (VStr serverId)
        (VStr uploadServerId))] /\
  secrets (trace (run w)) = [get (data r) (js "access_token")] /\
  outputs (trace (run w)) =
    [(js "settings-file", VStr (settingsPath w));
     (js "access-token", get (data r) (js "access_token"));
     (js "maven-deploy-args",
      VStr (js "-DaltDeploymentRepository={curity-upload-repo}::default::https://hub.curityio.net/repository/customer-release-repo/"))].
Proof.
  unfold outcome. rewrite checkMavenAvailable_eq. cbn [fst].
  intros Hm Hi Hb Ha Hs Ht Hr Hw. injection Hm as Hm.
  destruct (run_success_trace w secret r Hm Hi Hb Ha Hs Ht Hr Hw)
    as [pre [Htr [Ho [Hsec [Hf Hwr]]]]].
  unfold trace. rewrite Htr. autorewrite with trace_db.
  rewrite Ho, Hsec, Hf, Hwr. repeat split.
Qed.

Lemma run_success_witness :
  failures (trace (run sample_runner)) = [] /\
  outputs (trace (run sample_runner)) =
    [(js "settings-file", VStr (js "/home/runner/.m2/settings.xml"));
     (js "access-token", VStr (js "T"));
     (js "maven-deploy-args",
      VStr (js "-DaltDeploymentRepository={curity-upload-repo}::default::https://hub.curityio.net/repository/customer-release-repo/"))].
Proof.
  destruct (run_success sample_runner (js "s3cr3t")
              {| status := 200;
                 data := VObj [(js "access_token", VStr (js "T"));
                               (js "token_type", VStr (js "Bearer"));
                               (js "expires_in", VNum 3600)] |}
              eq_refl eq_refl eq_refl eq_refl eq_refl eq_refl eq_refl eq_refl)
    as [Hf [_ [_ Ho]]].
  split; [exact Hf | exact Ho].
Defined.

(** ** The renderer *)

Ltac no_success_line H :=
  repeat (destruct H as [H|H]; [discriminate|]); destruct H.

(** X10.  [createMavenSettings] returns (and then returns the given
    path) exactly when the directory is there or can be made and the
    write succeeds; an error it throws is the one [mkdirSync] or
    [writeFileSync] threw; and it logs "Maven settings.xml created
    successfully" exactly when it returns. *)
Theorem createMavenSettings_outcome (w : world) (a s u : value)
    (p : jsstring) (tr : list event) :
  (fst (createMavenSettings w a s u p tr) = Ok p <->
   reaches_write w p = true /\
   writeFileSync_answer w p (settingsXml a s u) = Ok tt) /\
  (forall e, fst (createMavenSettings w a s u p tr) = Throw e ->
             mkdirSync_answer w (path_dirname w p) = Throw e \/
             writeFileSync_answer w p (settingsXml a s u) = Throw e) /\
  (In (js "Maven settings.xml created successfully")
      (infos (events_of (createMavenSettings w a s u p) tr)) <->
   fst (createMavenSettings w a s u p tr) = Ok p).
Proof.
  unfold events_of, createMavenSettings, write_settings, reaches_write, bind,
    call, emit, ret.
  destruct (existsSync_answer w (path_dirname w p)); cbn [negb orb].
  - destruct (writeFileSync_answer w p (settingsXml a s u)) as [[]|e];
      cbn [fst snd]; rewrite <- !app_assoc, skipn_past.
    + split; [|split].
      * split; [intros _; split; reflexivity | reflexivity].
      * discriminate.
      * split; [reflexivity|]. intros _. cbn. tauto.
    + split; [|split].
      * split; [discriminate | intros [_ H]; discriminate].
      * intros e' H. injection H as <-. now right.
      * split; [|discriminate].
        cbn. intros H; no_success_line H.
  - destruct (mkdirSync_answer w (path_dirname w p)) as [[]|e].
    + destruct (writeFileSync_answer w p (settingsXml a s u)) as [[]|e];
        cbn [fst snd]; rewrite <- !app_assoc, skipn_past.
      * split; [|split].
        -- split; [intros _; split; reflexivity | reflexivity].
        -- discriminate.
        -- split; [reflexivity|]. intros _. cbn. tauto.
      * split; [|split].
        -- split; [discriminate | intros [_ H]; discriminate].
        -- intros e' H. injection H as <-. now right.
        -- split; [|discriminate].
           cbn. intros H; no_success_line H.
    + cbn [fst snd]. rewrite <- !app_assoc, skipn_past.
      split; [|split].
      * split; [discriminate | intros [H _]; discriminate].
      * intros e' H. injection H as <-. now left.
      * split; [|discriminate].
        cbn. intros H; no_success_line H.
Qed.

(** X11.  The renderer makes the directory only when [existsSync] says
    it is missing, and then makes [path.dirname] of the target with the
    [recursive] option; when the directory exists it makes none.  Both
    generations do so. *)
Theorem mkdir_only_when_missing (w : world) (a s u : value) (p : jsstring)
    (tr : list event) :
  mkdirs (events_of (createMavenSettings w a s u p) tr) =
    (if existsSync_answer w (path_dirname w p) then []
     else [(path_dirname w p, true)]) /\
  mkdirs (events_of (MirrorOnly.createMavenSettings w a s p) tr) =
    (if existsSync_answer w (path_dirname w p) then []
     else [(path_dirname w p, true)]).
Proof.
  unfold events_of, createMavenSettings, MirrorOnly.createMavenSettings,
    write_settings, bind, call, emit, ret.
  destruct (existsSync_answer w (path_dirname w p)); cbn [negb].
  - destruct (writeFileSync_answer w p (settingsXml a s u)),
      (writeFileSync_answer w p (MirrorOnly.settingsXml a s));
      cbn [fst snd]; rewrite <- !app_assoc, !skipn_past; split; reflexivity.
  - destruct (mkdirSync_answer w (path_dirname w p)) as [[]|e].
    + destruct (writeFileSync_answer w p (settingsXml a s u)),
        (writeFileSync_answer w p (MirrorOnly.settingsXml a s));
        cbn [fst snd]; rewrite <- !app_assoc, !skipn_past; split; reflexivity.
    + cbn [fst snd]. rewrite <- !app_assoc, !skipn_past. split; reflexivity.
Qed.

(** ** The document *)

(** X12.  The renderer copies its arguments into the document as they
    print, whatever they hold: the document always has the text
    [<value>Bearer TOKEN</value>] and the texts [<id>ID</id>] for the
    ids it was given, with nothing escaped or cut.  Both generations do
    so. *)
Theorem arguments_inserted_verbatim (accessToken serverId uploadServerId : value) :
  (includes (settingsXml accessToken serverId uploadServerId)
     (js "<value>Bearer " ++ ToString accessToken ++ js "</value>") = true /\
   includes (settingsXml accessToken serverId uploadServerId)
     (js "<id>" ++ ToString serverId ++ js "</id>") = true /\
   includes (settingsXml accessToken serverId uploadServerId)
     (js "<id>" ++ ToString uploadServerId ++ js "</id>") = true) /\
  (includes (MirrorOnly.settingsXml accessToken serverId)
     (js "<value>Bearer " ++ ToString accessToken ++ js "</value>") = true /\
   includes (MirrorOnly.settingsXml accessToken serverId)
     (js "<id>" ++ ToString serverId ++ js "</id>") = true).
Proof.
  unfold settingsXml, MirrorOnly.settingsXml.
  repeat split.
  - do 2 apply includes_skip.
    apply includes_between_more; vm_compute; reflexivity.
  - apply includes_between_more; vm_compute; reflexivity.
  - do 4 apply includes_skip.
    apply includes_between_more; vm_compute; reflexivity.
  - do 2 apply includes_skip.
    apply includes_between; vm_compute; reflexivity.
  - apply includes_between_more; vm_compute; reflexivity.
Qed.

(** X13.  For arguments that print as plain character data, the
    document of [createMavenSettings] reads back as a [settings]
    element in the Maven settings 1.2.0 namespace with exactly two
    server entries, the first with the mirror id and the second with
    the upload id, each with the one header [Authorization: Bearer
    TOKEN], and exactly one mirror of everything ([*]) at the
    dev-repository URL; the mirror bears the id of the first server and
    no header of its own. *)
Theorem dual_document_entries (accessToken serverId uploadServerId : value) :
  Xml.plain (ToString accessToken) = true ->
  Xml.plain (ToString serverId) = true ->
  Xml.plain (ToString uploadServerId) = true ->
  exists root,
    Xml.parse (settingsXml accessToken serverId uploadServerId) = Some root /\
    is_settings root = true /\
    List.map fst (attributes_of root) =
      [js "xmlns"; js "xmlns:xsi"; js "xsi:schemaLocation"] /\
    In (js "xmlns", js "http://maven.apache.org/SETTINGS/1.2.0")
       (attributes_of root) /\
    server_entries root =
      [ {| server_id := [ToString serverId];
           server_headers :=
             [([js "Authorization"], [js "Bearer " ++ ToString accessToken])] |};
        {| server_id := [ToString uploadServerId];
           server_headers :=
             [([js "Authorization"], [js "Bearer " ++ ToString accessToken])] |} ] /\
    mirror_entries root =
      [ {| mirror_id := [ToString serverId];
           mirror_url :=
             [js "https://hub.curityio.net/repository/curity-dev-repo-group/"];
           mirror_of := [js "*"];
           mirror_headers := [] |} ].
Proof.
  intros Ht Hs Hu.
  change (settingsXml accessToken serverId uploadServerId)
    with (settingsXml (VStr (ToString accessToken)) (VStr (ToString serverId))
            (VStr (ToString uploadServerId))).
  exact (dual_document_tree _ _ _ (plain_literal _ Ht) (plain_literal _ Hs)
           (plain_literal _ Hu)).
Qed.

Lemma dual_document_entries_witness :
  exists root,
    Xml.parse (settingsXml (VStr (js "abc123")) (VStr (js "curity-repo"))
                 (VNum 7)) = Some root /\
    List.map server_id (server_entries root) = [[js "curity-repo"]; [js "7"]].
Proof.
  destruct (dual_document_entries (VStr (js "abc123")) (VStr (js "curity-repo"))
              (VNum 7) eq_refl eq_refl eq_refl)
    as [root [Hp [_ [_ [_ [Hs _]]]]]].
  exists root. split; [exact Hp|]. rewrite Hs. reflexivity.
Defined.

(** X14.  For arguments that print as plain character data, the
    document of the mirror-only renderer reads back as a [settings]
    element in the Maven settings 1.2.0 namespace with no server entry
    and exactly one mirror: with the given id, of everything ([*]), at
    the release-repository URL, and with the one header
    [Authorization: Bearer TOKEN] on the mirror itself. *)
Theorem mirror_only_document_entries (accessToken serverId : value) :
  Xml.plain (ToString accessToken) = true ->
  Xml.plain (ToString serverId) = true ->
  exists root,
    Xml.parse (MirrorOnly.settingsXml accessToken serverId) = Some root /\
    is_settings root = true /\
    List.map fst (attributes_of root) =
      [js "xmlns"; js "xmlns:xsi"; js "xsi:schemaLocation"] /\
    In (js "xmlns", js "http://maven.apache.org/SETTINGS/1.2.0")
       (attributes_of root) /\
    server_entries root = [] /\
    mirror_entries root =
      [ {| mirror_id := [ToString serverId];
           mirror_url :=
             [js "https://hub.curityio.net/repository/curity-release-repo/"];
           mirror_of := [js "*"];
           mirror_headers :=
             [([js "Authorization"], [js "Bearer " ++ ToString accessToken])] |} ].
Proof.
  intros Ht Hs.
  change (MirrorOnly.settingsXml accessToken serverId)
    with (MirrorOnly.settingsXml (VStr (ToString accessToken))
            (VStr (ToString serverId))).
  exact (mirror_document_tree _ _ (plain_literal _ Ht) (plain_literal _ Hs)).
Qed.

Lemma mirror_only_document_entries_witness :
  exists root,
    Xml.parse (MirrorOnly.settingsXml (VStr (js "abc123"))
                 (VStr (js "curity-repo"))) = Some root /\
    List.map mirror_headers (mirror_entries root) =
      [[([js "Authorization"], [js "Bearer abc123"])]].
Proof.
  destruct (mirror_only_document_entries (VStr (js "abc123"))
              (VStr (js "curity-repo")) eq_refl eq_refl)
    as [root [Hp [_ [_ [_ [_ Hm]]]]]].
  exists root. split; [exact Hp|]. rewrite Hm. reflexivity.
Defined.

(** X15.  End to end: when every step of the run succeeds and the
    token prints as plain character data, the one file the run writes,
    at the settings path, reads back as a settings document whose
    server entries are [curity-repo] and [curity-upload-repo], each
    sending [Bearer TOKEN], and whose mirror is [curity-repo]; the
    server id in the [maven-deploy-args] output, [curity-upload-repo],
    is the id of the second server entry. *)
Theorem run_writes_readable_settings (w : world) (secret : jsstring)
    (r : http_response) :
  outcome (checkMavenAvailable w) = Ok true ->
  input_client_secret w = Ok secret ->
  nonblank secret = true ->
  axios_answer w oauthServerUrl (token_request_params clientId secret scope) =
    Resolved r ->
  status r = 200%Z ->
  truthy (get (data r) (js "access_token")) = true ->
  Xml.plain (ToString (get (data r) (js "access_token"))) = true ->
  reaches_write w (settingsPath w) = true ->
  writeFileSync_answer w (settingsPath w)
    (settingsXml (get (data r) (js "access_token")) (VStr serverId)
       (VStr uploadServerId)) = Ok tt ->
  exists doc root,
    written (trace (run w)) = [(settingsPath w, doc)] /\
    Xml.parse doc = Some root /\
    server_entries root =
      [ {| server_id := [js "curity-repo"];
           server_headers :=
             [([js "Authorization"],
               [js "Bearer " ++ ToString (get (data r) (js "access_token"))])] |};
        {| server_id := [js "curity-upload-repo"];
           server_headers :=
             [([js "Authorization"],
               [js "Bearer " ++ ToString (get (data r) (js "access_token"))])] |} ] /\
    List.map mirror_id (mirror_entries root) = [[js "curity-repo"]] /\
    In (js "maven-deploy-args",
        VStr (js "-DaltDeploymentRepository={" ++ js "curity-upload-repo" ++
              js "}::default::https://hub.curityio.net/repository/customer-release-repo/"))
       (outputs (trace (run w))).
Proof.
  unfold outcome. rewrite checkMavenAvailable_eq. cbn [fst].
  intros Hm Hi Hb Ha Hs Ht Hp Hr Hw. injection Hm as Hm.
  destruct (run_success_trace w secret r Hm Hi Hb Ha Hs Ht Hr Hw)
    as [pre [Htr [Ho [Hsec [Hf Hwr]]]]].
  destruct (dual_document_reads
              (ToString (get (data r) (js "access_token")))
              serverId uploadServerId Hp eq_refl eq_refl)
    as [root [Hparse [_ [Hse Hmi]]]].
  exists (settingsXml (get (data r) (js "access_token")) (VStr serverId)
            (VStr uploadServerId)), root.
  unfold trace. rewrite Htr. autorewrite with trace_db. rewrite Hwr, Ho.
  split; [reflexivity|].
  split; [exact Hparse|].
  split; [exact Hse|].
  split; [rewrite Hmi; reflexivity|].
  cbn. right. right. left. reflexivity.
Qed.

Lemma run_writes_readable_settings_witness :
  exists doc root,
    written (trace (run sample_runner)) =
      [(js "/home/runner/.m2/settings.xml", doc)] /\
    Xml.parse doc = Some root /\
    List.map server_id (server_entries root) =
      [[js "curity-repo"]; [js "curity-upload-repo"]].
Proof.
  destruct (run_writes_readable_settings sample_runner (js "s3cr3t")
              {| status := 200;
                 data := VObj [(js "access_token", VStr (js "T"));
                               (js "token_type", VStr (js "Bearer"));
                               (js "expires_in", VNum 3600)] |}
              eq_refl eq_refl eq_refl eq_refl eq_refl eq_refl eq_refl eq_refl
              eq_refl)
    as [doc [root [Hw [Hp [Hs _]]]]].
  exists doc, root. split; [exact Hw|]. split; [exact Hp|].
  rewrite Hs. reflexivity.
Defined.

(** ** Edges of the probe, the exchange and the run *)

Lemma first_line_prefix (s : jsstring) : starts_with (first_line s) s = true.
Proof.
  induction s as [|c s IH]; [reflexivity|].
  cbn [first_line]. destruct (c =? 10) eqn:E; [reflexivity|].
  cbn [starts_with]. now rewrite N.eqb_refl.
Qed.

Lemma first_line_one_line (s : jsstring) : ~ In 10 (first_line s).
Proof.
  induction s as [|c s IH]; [intros []|].
  cbn [first_line]. destruct (c =? 10) eqn:E; [intros []|].
  intros [H|H]; [|exact (IH H)].
  subst c. discriminate.
Qed.

(** X16.  The probe runs [mvn --version] once, silently, and has no
    other effect than one log line at most: on exit code 0 an info line
    with the first line of the collected output (the chunks joined, cut
    before the first line feed); on a rejection a debug line with the
    error's message; on any other exit code nothing at all. *)
Theorem probe_effects (w : world) (tr : list event) :
  events_of (checkMavenAvailable w) tr =
    exec_exec (js "mvn") [js "--version"] true ::
    match exec_mvn_version w with
    | ExecExit code chunks =>
        if (code =? 0)%Z
        then [core_info (js "Maven is available: " ++
                         first_line (concat chunks))]
        else []
    | ExecReject _ e => [core_debug (js "Maven check failed: " ++ message e)]
    end /\
  forall chunks : list jsstring,
    starts_with (first_line (concat chunks)) (concat chunks) = true /\
    ~ In 10 (first_line (concat chunks)).
Proof.
  split.
  - unfold events_of. rewrite checkMavenAvailable_eq. cbn [snd].
    rewrite skipn_past. reflexivity.
  - intros chunks. split.
    + apply first_line_prefix.
    + apply first_line_one_line.
Qed.

(** X17.  A resolved response whose status is not 200 is a failure even
    when its body holds a token: [getAccessToken] throws "OAuth request
    error: No access token in response" and returns nothing. *)
Theorem resolved_other_status_fails (w : world) (url id secret sc : jsstring)
    (r : http_response) (tr : list event) :
  axios_answer w url (token_request_params id secret sc) = Resolved r ->
  status r <> 200%Z ->
  getAccessToken w url id secret sc tr =
    (Throw (Error (js "OAuth request error: No access token in response")),
     tr ++ request_events url id secret sc).
Proof.
  intros Ha Hs.
  apply getAccessToken_malformed with (r := r); [exact Ha|].
  apply Z.eqb_neq in Hs. rewrite Hs. reflexivity.
Qed.

Lemma resolved_other_status_fails_witness :
  getAccessToken
    (runner maven_present (Ok (js "s3cr3t"))
       (Resolved {| status := 201;
                    data := VObj [(js "access_token", VStr (js "T"))] |}))
    oauthServerUrl clientId (js "s3cr3t") scope [] =
  (Throw (Error (js "OAuth request error: No access token in response")),
   [] ++ request_events oauthServerUrl clientId (js "s3cr3t") scope).
Proof.
  apply (resolved_other_status_fails
           (runner maven_present (Ok (js "s3cr3t"))
              (Resolved {| status := 201;
                           data := VObj [(js "access_token", VStr (js "T"))] |}))
           oauthServerUrl clientId (js "s3cr3t") scope
           {| status := 201;
              data := VObj [(js "access_token", VStr (js "T"))] |} []).
  - reflexivity.
  - discriminate.
Defined.

Lemma getAccessToken_outcome_any_trace (w : world)
    (url id secret sc : jsstring) (tr : list event) :
  fst (getAccessToken w url id secret sc tr) =
  outcome (getAccessToken w url id secret sc).
Proof.
  unfold outcome, getAccessToken, bind, try_catch, call, emit, ret, throw.
  destruct (axios_answer w url (token_request_params id secret sc)) as [r|e];
    cbn [fst snd].
  - destruct ((status r =? 200)%Z && truthy (data r)
              && truthy (get (data r) (js "access_token"))); reflexivity.
  - destruct (response e); [|destruct (request e)]; reflexivity.
Qed.

Lemma createMavenSettings_outcome_any_trace (w : world) (a s u : value)
    (p : jsstring) (tr : list event) :
  fst (createMavenSettings w a s u p tr) =
  outcome (createMavenSettings w a s u p).
Proof.
  unfold outcome, createMavenSettings, write_settings, bind, call, emit, ret.
  destruct (existsSync_answer w (path_dirname w p)); cbn [negb].
  - destruct (writeFileSync_answer w p (settingsXml a s u)); reflexivity.
  - destruct (mkdirSync_answer w (path_dirname w p)) as [[]|e];
      [|reflexivity].
    destruct (writeFileSync_answer w p (settingsXml a s u)); reflexivity.
Qed.

(** X18.  When [core.getInput] throws (as it does for a required input
    that was not supplied), the run fails with that error's message
    after "Action failed: ", makes no network call, writes no file and
    sets no output. *)
Theorem run_reports_refused_input (w : world) (e : error) :
  outcome (checkMavenAvailable w) = Ok true ->
  input_client_secret w = Throw e ->
  failures (trace (run w)) = [js "Action failed: " ++ message e] /\
  network_calls (trace (run w)) = 0%nat /\
  written (trace (run w)) = [] /\
  outputs (trace (run w)) = [].
Proof.
  unfold outcome. rewrite checkMavenAvailable_eq. cbn [fst].
  intros Hm Hi. injection Hm as Hm.
  probe_facts w.
  unfold trace, run, try_catch, bind, call, emit.
  rewrite checkMavenAvailable_eq, Hm, Hi. cbn [negb fst snd app].
  rewrite <- !app_assoc. autorewrite with trace_db.
  rewrite Hpn, Hpf, Hpw, Hpo. repeat split.
Qed.

Lemma run_reports_refused_input_witness :
  failures
    (trace (run (runner maven_present
                   (Throw (Error (js "Input required and not supplied: client-secret")))
                   (token_granted (js "T"))))) =
    [js "Action failed: Input required and not supplied: client-secret"] /\
  network_calls
    (trace (run (runner maven_present
                   (Throw (Error (js "Input required and not supplied: client-secret")))
                   (token_granted (js "T"))))) = 0%nat.
Proof.
  destruct (run_reports_refused_input
              (runner maven_present
                 (Throw (Error (js "Input required and not supplied: client-secret")))
                 (token_granted (js "T")))
              (Error (js "Input required and not supplied: client-secret"))
              eq_refl eq_refl) as [Hf [Hn _]].
  split; [exact Hf | exact Hn].
Defined.

(** X19.  When the token exchange fails, the run fails with the
    exchange's message after "Action failed: ", having made its one
    request; it writes no file, sets no output and registers no
    secret. *)
Theorem run_reports_token_failure (w : world) (secret : jsstring) (e : error) :
  outcome (checkMavenAvailable w) = Ok true ->
  input_client_secret w = Ok secret ->
  nonblank secret = true ->
  outcome (getAccessToken w oauthServerUrl clientId secret scope) = Throw e ->
  failures (trace (run w)) = [js "Action failed: " ++ message e] /\
  network_calls (trace (run w)) = 1%nat /\
  written (trace (run w)) = [] /\
  outputs (trace (run w)) = [] /\
  secrets (trace (run w)) = [].
Proof.
  unfold outcome at 1. rewrite checkMavenAvailable_eq. cbn [fst].
  intros Hm Hi Hb He. injection Hm as Hm.
  probe_facts w.
  unfold trace, run, try_catch, bind, call, emit, throw.
  rewrite checkMavenAvailable_eq, Hm, Hi. cbn [negb fst snd app].
  rewrite trim_truthy, Hb. cbn [negb].
  match goal with
  | |- context [getAccessToken w ?a ?b ?c ?d ?t] =>
      pose proof (getAccessToken_trace w a b c d t) as Htr;
      pose proof (getAccessToken_outcome_any_trace w a b c d t) as Hfst;
      destruct (getAccessToken w a b c d t) as [res tr1]
  end.
  cbn [fst snd] in *. rewrite He in Hfst. subst res tr1. cbn [fst snd].
  rewrite <- !app_assoc. autorewrite with trace_db.
  rewrite Hpn, Hpf, Hpw, Hpo, Hps. repeat split.
Qed.

Lemma run_reports_token_failure_witness :
  failures
    (trace (run (runner maven_present (Ok (js "s3cr3t"))
                   (rejected_with 401 invalid_client_body)))) =
    [jsq "Action failed: OAuth request failed with status 401: {`error`:`invalid_client`}"] /\
  written
    (trace (run (runner maven_present (Ok (js "s3cr3t"))
                   (rejected_with 401 invalid_client_body)))) = [].
Proof.
  destruct (run_reports_token_failure
              (runner maven_present (Ok (js "s3cr3t"))
                 (rejected_with 401 invalid_client_body))
              (js "s3cr3t")
              (Error (jsq "OAuth request failed with status 401: {`error`:`invalid_client`}"))
              eq_refl eq_refl eq_refl eq_refl) as [Hf [_ [Hw _]]].
  split; [exact Hf | exact Hw].
Defined.

(** X20.  When the token was obtained but the renderer throws (the
    directory cannot be made or the file cannot be written), the run
    fails with that error's message after "Action failed: "; the token
    is then neither output nor registered as a secret, and no
    [settings-file] output is set. *)
Theorem run_reports_write_failure (w : world) (secret : jsstring)
    (tok : value) (e : error) :
  outcome (checkMavenAvailable w) = Ok true ->
  input_client_secret w = Ok secret ->
  nonblank secret = true ->
  outcome (getAccessToken w oauthServerUrl clientId secret scope) = Ok tok ->
  outcome (createMavenSettings w tok (VStr serverId) (VStr uploadServerId)
             (settingsPath w)) = Throw e ->
  failures (trace (run w)) = [js "Action failed: " ++ message e] /\
  network_calls (trace (run w)) = 1%nat /\
  outputs (trace (run w)) = [] /\
  secrets (trace (run w)) = [].
Proof.
  unfold outcome at 1. rewrite checkMavenAvailable_eq. cbn [fst].
  intros Hm Hi Hb Hg Hc. injection Hm as Hm.
  probe_facts w.
  unfold trace, run, try_catch, bind, call, emit, throw.
  rewrite checkMavenAvailable_eq, Hm, Hi. cbn [negb fst snd app].
  rewrite trim_truthy, Hb. cbn [negb].
  match goal with
  | |- context [getAccessToken w ?a ?b ?c ?d ?t] =>
      pose proof (getAccessToken_trace w a b c d t) as Htr;
      pose proof (getAccessToken_outcome_any_trace w a b c d t) as Hfst;
      destruct (getAccessToken w a b c d t) as [res tr1]
  end.
  cbn [fst snd] in *. rewrite Hg in Hfst. subst res tr1.
  match goal with
  | |- context [createMavenSettings w tok ?x ?y ?p ?t] =>
      destruct (createMavenSettings_effects w tok x y p t)
        as [evs [Hsnd [Heo [Hes [Hef [Her [Hew _]]]]]]];
      pose proof (createMavenSettings_outcome_any_trace w tok x y p t) as Hfst;
      destruct (createMavenSettings w tok x y p t) as [res tr2]
  end.
  cbn [fst snd] in *. rewrite Hc in Hfst. subst res tr2. cbn [fst snd].
  rewrite <- !app_assoc. rewrite !network_calls_requests.
  autorewrite with trace_db.
  rewrite Hpr, Hpf, Hpo, Hps, Heo, Hes, Hef, Her. repeat split.
Qed.

Lemma run_reports_write_failure_witness :
  failures
    (trace (run {| exec_mvn_version := maven_present;
                   input_client_secret := Ok (js "s3cr3t");
                   axios_answer := fun _ _ => token_granted (js "T");
                   os_homedir := js "/home/runner";
                   path_join := posix_join;
                   path_dirname := posix_dirname;
                   existsSync_answer := fun _ => true;
                   mkdirSync_answer := fun _ => Ok tt;
                   writeFileSync_answer := fun _ _ =>
                     Throw (Error (js "EACCES: permission denied")) |})) =
    [js "Action failed: EACCES: permission denied"].
Proof.
  apply (run_reports_write_failure
           {| exec_mvn_version := maven_present;
              input_client_secret := Ok (js "s3cr3t");
              axios_answer := fun _ _ => token_granted (js "T");
              os_homedir := js "/home/runner";
              path_join := posix_join;
              path_dirname := posix_dirname;
              existsSync_answer := fun _ => true;
              mkdirSync_answer := fun _ => Ok tt;
              writeFileSync_answer := fun _ _ =>
                Throw (Error (js "EACCES: permission denied")) |}
           (js "s3cr3t") (VStr (js "T"))
           (Error (js "EACCES: permission denied")));
    reflexivity.
Defined.
